(** * Adafruit VEML7700 ambient-light driver: exposure control and lux maths

    A shallow embedding of the driver sources:
    - [Adafruit_VEML7700] (register shim, [normalize_resolution], [readLux],
      [readLuxNormalized], [convertToLux], [optimizeParams], [luxAutoSensor]);
    - [VEML7700AutoGain] ([lazyNormalize], [readLuxAuto], [getIntegrationMs],
      [prevIt], [nextIt], [prevGain], [nextGain]).

    Conventions.
    - [uint8_t] / [uint16_t] / [int8_t] values are integers of [Z]; the
      functions below never leave the range of their C type on the inputs the
      theorems speak about, and register-field writes mask explicitly.
    - [float] / [double] values are exact rationals of [Q], compared with
      [==]: rounding is not modelled.  The scalings by 2, 4 and 8 are exact on
      binary floating point, so the only rounded steps are the product with
      0.0576 (resp. 0.0036) and the quartic correction.
    - A register field ([Adafruit_I2CRegisterBits]) is a field of the record
      [device]; a write keeps the low [bits] bits of the data, a read returns
      the field.  Every write is also appended to the bus log of the device. *)

From Stdlib Require Import ZArith QArith List Bool Lia Lqa.
Import ListNotations.

Local Open Scope Z_scope.

(** ** Register codes (Adafruit_VEML7700.h) *)

Definition VEML7700_GAIN_1 : Z := 0.
Definition VEML7700_GAIN_2 : Z := 1.
Definition VEML7700_GAIN_1_8 : Z := 2.
Definition VEML7700_GAIN_1_4 : Z := 3.

Definition VEML7700_IT_100MS : Z := 0.
Definition VEML7700_IT_200MS : Z := 1.
Definition VEML7700_IT_400MS : Z := 2.
Definition VEML7700_IT_800MS : Z := 3.
Definition VEML7700_IT_50MS : Z := 8.
Definition VEML7700_IT_25MS : Z := 12.

(** VEML7700AutoGain.h *)
Definition VEML7700_GAIN_MIN : Z := VEML7700_GAIN_1_8.
Definition VEML7700_GAIN_MAX : Z := VEML7700_GAIN_2.
Definition VEML7700_IT_MAX : Z := VEML7700_IT_800MS.
Definition VEML7700_IT_MIN : Z := VEML7700_IT_25MS.

(** [~0] converted to [uint8_t]. *)
Definition UINT8_ALL_ONES : Z := 255.

(** The four gain codes and the six integration-time codes of the header. *)
Definition gain_codes : list Z :=
  [VEML7700_GAIN_1_8; VEML7700_GAIN_1_4; VEML7700_GAIN_1; VEML7700_GAIN_2].

Definition it_codes : list Z :=
  [VEML7700_IT_25MS; VEML7700_IT_50MS; VEML7700_IT_100MS;
   VEML7700_IT_200MS; VEML7700_IT_400MS; VEML7700_IT_800MS].

Definition valid_gain (g : Z) : Prop := In g gain_codes.
Definition valid_it (i : Z) : Prop := In i it_codes.

(** ** The register shim of [Adafruit_VEML7700] *)

Module Device.

(** What goes over the bus, in order: the field writes and the timed waits. *)
Inductive event : Type :=
| WriteShutdown (v : Z)
| WriteIntegrationTime (v : Z)
| WriteGain (v : Z)
| Delay (ms : Z).

(** The fields of the ALS configuration register that [begin] declares:
    [ALS_Shutdown] (1 bit, shift 0), [ALS_Integration_Time] (4 bits,
    shift 6), [ALS_Gain] (2 bits, shift 11). *)
Record device : Type := mkDevice {
  ALS_Shutdown : Z;
  ALS_Integration_Time : Z;
  ALS_Gain : Z;
  bus : list event
}.

(** [Adafruit_I2CRegisterBits::write]: the data is masked to the width of
    the field. *)
Definition field (bits : Z) (data : Z) : Z :=
  Z.land data (Z.shiftl 1 bits - 1).

(** [void enable(bool enable) { ALS_Shutdown->write(!enable); }] *)
Definition enable (en : bool) (d : device) : device :=
  let v := if negb en then 1 else 0 in
  {| ALS_Shutdown := field 1 v;
     ALS_Integration_Time := ALS_Integration_Time d;
     ALS_Gain := ALS_Gain d;
     bus := bus d ++ [WriteShutdown v] |}.

(** [bool enabled(void) { return !ALS_Shutdown->read(); }] *)
Definition enabled (d : device) : bool := ALS_Shutdown d =? 0.

(** [void setIntegrationTime(uint8_t it) { ALS_Integration_Time->write(it); }] *)
Definition setIntegrationTime (it : Z) (d : device) : device :=
  {| ALS_Shutdown := ALS_Shutdown d;
     ALS_Integration_Time := field 4 it;
     ALS_Gain := ALS_Gain d;
     bus := bus d ++ [WriteIntegrationTime it] |}.

Definition getIntegrationTime (d : device) : Z := ALS_Integration_Time d.

(** [void setGain(uint8_t gain) { ALS_Gain->write(gain); }] *)
Definition setGain (gain : Z) (d : device) : device :=
  {| ALS_Shutdown := ALS_Shutdown d;
     ALS_Integration_Time := ALS_Integration_Time d;
     ALS_Gain := field 2 gain;
     bus := bus d ++ [WriteGain gain] |}.

Definition getGain (d : device) : Z := ALS_Gain d.

(** [delay(ms)] *)
Definition delay (ms : Z) (d : device) : device :=
  {| ALS_Shutdown := ALS_Shutdown d;
     ALS_Integration_Time := ALS_Integration_Time d;
     ALS_Gain := ALS_Gain d;
     bus := bus d ++ [Delay ms] |}.

(** [bool begin(TwoWire *theWire)] when the device acknowledges, on the
    fields above: [enable(false); setGain(VEML7700_GAIN_1);
    setIntegrationTime(VEML7700_IT_100MS); enable(true);] (the interrupt,
    persistence and power-save writes touch other fields). *)
Definition begin (d : device) : device :=
  enable true
    (setIntegrationTime VEML7700_IT_100MS
       (setGain VEML7700_GAIN_1 (enable false d))).

(** The configuration register after power-up: shut down, all else zero. *)
Definition power_up : device :=
  {| ALS_Shutdown := 1; ALS_Integration_Time := 0; ALS_Gain := 0;
     bus := [] |}.

End Device.

(** ** Stepping through the exposure settings (VEML7700AutoGain.cpp) *)

Module Step.

Definition prevIt (it : Z) : Z :=
  if it =? VEML7700_IT_50MS then VEML7700_IT_25MS
  else if it =? VEML7700_IT_100MS then VEML7700_IT_50MS
  else if it =? VEML7700_IT_200MS then VEML7700_IT_100MS
  else if it =? VEML7700_IT_400MS then VEML7700_IT_200MS
  else if it =? VEML7700_IT_800MS then VEML7700_IT_400MS
  else UINT8_ALL_ONES.

Definition nextIt (it : Z) : Z :=
  if it =? VEML7700_IT_25MS then VEML7700_IT_50MS
  else if it =? VEML7700_IT_50MS then VEML7700_IT_100MS
  else if it =? VEML7700_IT_100MS then VEML7700_IT_200MS
  else if it =? VEML7700_IT_200MS then VEML7700_IT_400MS
  else if it =? VEML7700_IT_400MS then VEML7700_IT_800MS
  else UINT8_ALL_ONES.

Definition prevGain (gain : Z) : Z :=
  if gain =? VEML7700_GAIN_1_4 then VEML7700_GAIN_1_8
  else if gain =? VEML7700_GAIN_1 then VEML7700_GAIN_1_4
  else if gain =? VEML7700_GAIN_2 then VEML7700_GAIN_1
  else UINT8_ALL_ONES.

Definition nextGain (gain : Z) : Z :=
  if gain =? VEML7700_GAIN_1_8 then VEML7700_GAIN_1_4
  else if gain =? VEML7700_GAIN_1_4 then VEML7700_GAIN_1
  else if gain =? VEML7700_GAIN_1 then VEML7700_GAIN_2
  else UINT8_ALL_ONES.

End Step.

(** ** Calibration maths of [Adafruit_VEML7700] *)

Module Calibration.
Import Device.
Local Open Scope Q_scope.

(** The sensor's lux per count at gain 1x and 100 ms (app note, page 5). *)
Definition LUX_PER_COUNT : Q := 0.0576.

(** [static const double gainCoeff[] = {1.0, 0.5, 8.0, 4.0};] *)
Definition gainCoeff : list Q := [1; 0.5; 8; 4].

(** [static const double integrationTimeCoeff[]], sixteen entries. *)
Definition integrationTimeCoeff : list Q :=
  [1; 0.5; 0.25; 0.125; 1; 1; 1; 1; 2; 1; 1; 1; 4; 1; 1; 1].

(** [static const uint8_t gainIndex[] = {2, 3, 0, 1};] *)
Definition gainIndex : list Z := [2; 3; 0; 1]%Z.

(** [static const uint8_t integrationTimeIndex[]], sixteen entries. *)
Definition integrationTimeIndex : list Z :=
  [2; 3; 4; 5; 0; 0; 0; 0; 1; 0; 0; 0; 0; 0; 0; 0]%Z.

(** Array subscripts; the index is a register field, so it is in range for
    the table it is used with. *)
Definition at_index {A : Type} (tbl : list A) (i : Z) (dflt : A) : A :=
  nth (Z.to_nat i) tbl dflt.

(** The correction as [readLuxNormalized] and [convertToLux] write it
    ("equation refactored to avoid pow() function"). *)
Definition correction (lux : Q) : Q :=
  (((6.0135e-13 * lux - 9.3924e-9) * lux + 8.1488e-5) * lux + 1.0023) * lux.

(** The correction written with [pow], as [readLuxAuto] has it. *)
Definition correction_pow (lux : Q) : Q :=
  6.0135e-13 * lux ^ 4 - 9.3924e-9 * lux ^ 3 + 8.1488e-5 * lux ^ 2
  + 1.0023 * lux.

(** [float normalize_resolution(float value)] *)
Definition normalize_resolution (d : device) (value : Q) : Q :=
  let g := getGain d in
  let value :=
    if (g =? VEML7700_GAIN_2)%Z then value / 2
    else if (g =? VEML7700_GAIN_1_4)%Z then value * 4
    else if (g =? VEML7700_GAIN_1_8)%Z then value * 8
    else value in
  let i := getIntegrationTime d in
  if (i =? VEML7700_IT_25MS)%Z then value * 4
  else if (i =? VEML7700_IT_50MS)%Z then value * 2
  else if (i =? VEML7700_IT_200MS)%Z then value / 2
  else if (i =? VEML7700_IT_400MS)%Z then value / 4
  else if (i =? VEML7700_IT_800MS)%Z then value / 8
  else value.

(** [float readLux()], on the count that [ALS_Data->read()] returns. *)
Definition readLux (d : device) (als : Z) : Q :=
  normalize_resolution d (inject_Z als) * LUX_PER_COUNT.

(** [float readLuxNormalized()] *)
Definition readLuxNormalized (d : device) (als : Z) : Q :=
  let lux := readLux d als in
  if ((getGain d =? VEML7700_GAIN_1_8)
      && (getIntegrationTime d =? VEML7700_IT_25MS))%Z
  then correction lux
  else lux.

(** The first statement of [convertToLux]:
    [double ret = value * gainCoeff[g] * integrationTimeCoeff[i] * 0.0576;] *)
Definition convertToLux_ret (g i value : Z) : Q :=
  inject_Z value * at_index gainCoeff g 0 * at_index integrationTimeCoeff i 0
  * LUX_PER_COUNT.

(** [float convertToLux(uint16_t value)] *)
Definition convertToLux (d : device) (value : Z) : Q :=
  let g := getGain d in
  let i := getIntegrationTime d in
  let ret := convertToLux_ret g i value in
  if ((g =? VEML7700_GAIN_1_8) && (i =? VEML7700_IT_25MS))%Z
  then correction ret
  else ret.

End Calibration.

(** ** [VEML7700AutoGain]: the single-step adaptive read *)

Module AutoGain.
Import Step.

Inductive VemlResultType : Type := GOOD | TOO_LOW | TOO_HIGH.

Record VemlAutoResult : Type := mkResult {
  val : Q;
  type : VemlResultType
}.

(** The object: the base-class device and the private members. *)
Record VEML7700AutoGain : Type := mkAutoGain {
  dev : Device.device;
  veml_it : Z;
  veml_gain : Z;
  low_threshold : Z;
  high_threshold : Z
}.

Definition with_dev (st : VEML7700AutoGain) (d : Device.device) :=
  {| dev := d; veml_it := veml_it st; veml_gain := veml_gain st;
     low_threshold := low_threshold st;
     high_threshold := high_threshold st |}.

(** Inherited [enable]. *)
Definition enable (en : bool) (st : VEML7700AutoGain) : VEML7700AutoGain :=
  with_dev st (Device.enable en (dev st)).

(** [veml_it = it; Adafruit_VEML7700::setIntegrationTime(it);] *)
Definition setIntegrationTime (it : Z) (st : VEML7700AutoGain) :=
  {| dev := Device.setIntegrationTime it (dev st);
     veml_it := it; veml_gain := veml_gain st;
     low_threshold := low_threshold st;
     high_threshold := high_threshold st |}.

(** [veml_gain = gain; Adafruit_VEML7700::setGain(gain);] *)
Definition setGain (gain : Z) (st : VEML7700AutoGain) :=
  {| dev := Device.setGain gain (dev st);
     veml_it := veml_it st; veml_gain := gain;
     low_threshold := low_threshold st;
     high_threshold := high_threshold st |}.

Definition setAutoThreshold (low high : Z) (st : VEML7700AutoGain) :=
  {| dev := dev st; veml_it := veml_it st; veml_gain := veml_gain st;
     low_threshold := low; high_threshold := high |}.

(** [boolean begin(TwoWire *theWire)] when the base class succeeds:
    [veml_gain = getGain(); veml_it = getIntegrationTime();
    setAutoThreshold(100, 10000);] *)
Definition begin (d : Device.device) : VEML7700AutoGain :=
  let d := Device.begin d in
  {| dev := d;
     veml_it := Device.getIntegrationTime d;
     veml_gain := Device.getGain d;
     low_threshold := 100; high_threshold := 10000 |}.

(** [float lazyNormalize(float value)] *)
Definition lazyNormalize (st : VEML7700AutoGain) (value : Q) : Q :=
  let value :=
    if veml_gain st =? VEML7700_GAIN_2 then (value / 2)%Q
    else if veml_gain st =? VEML7700_GAIN_1_4 then (value * 4)%Q
    else if veml_gain st =? VEML7700_GAIN_1_8 then (value * 8)%Q
    else value in
  if veml_it st =? VEML7700_IT_25MS then (value * 4)%Q
  else if veml_it st =? VEML7700_IT_50MS then (value * 2)%Q
  else if veml_it st =? VEML7700_IT_200MS then (value / 2)%Q
  else if veml_it st =? VEML7700_IT_400MS then (value / 4)%Q
  else if veml_it st =? VEML7700_IT_800MS then (value / 8)%Q
  else value.

(** [uint16_t getIntegrationMs()] *)
Definition getIntegrationMs (st : VEML7700AutoGain) : Z :=
  if veml_it st =? VEML7700_IT_100MS then 100
  else if veml_it st =? VEML7700_IT_200MS then 200
  else if veml_it st =? VEML7700_IT_400MS then 400
  else if veml_it st =? VEML7700_IT_800MS then 800
  else if veml_it st =? VEML7700_IT_50MS then 50
  else if veml_it st =? VEML7700_IT_25MS then 25
  else 0.

(** The first value of [lux] in [readLuxAuto]:
    [float lux = lazyNormalize(count) * 0.0576f;] *)
Definition readLuxAuto_lux (st : VEML7700AutoGain) (count : Z) : Q :=
  (lazyNormalize st (inject_Z count) * Calibration.LUX_PER_COUNT)%Q.

(** The exposure change of [readLuxAuto] when [count < low_threshold]. *)
Definition increase (st : VEML7700AutoGain) : VEML7700AutoGain :=
  if getIntegrationMs st <? 100 then
    enable true (setIntegrationTime (nextIt (veml_it st)) (enable false st))
  else if negb (veml_gain st =? VEML7700_GAIN_MAX) then
    enable true (setGain (nextGain (veml_gain st)) (enable false st))
  else if negb (veml_it st =? VEML7700_IT_MAX) then
    enable true (setIntegrationTime (nextIt (veml_it st)) (enable false st))
  else st.

(** The exposure change of [readLuxAuto] when [count > high_threshold]. *)
Definition decrease (st : VEML7700AutoGain) : VEML7700AutoGain :=
  if getIntegrationMs st >? 100 then
    enable true (setIntegrationTime (prevIt (veml_it st)) (enable false st))
  else if negb (veml_gain st =? VEML7700_GAIN_MIN) then
    enable true (setGain (prevGain (veml_gain st)) (enable false st))
  else if negb (veml_it st =? VEML7700_IT_MIN) then
    enable true (setIntegrationTime (prevIt (veml_it st)) (enable false st))
  else st.

(** [VemlAutoResult readLuxAuto(bool apply_correction = true)], on the
    count that [readALS()] returns. *)
Definition readLuxAuto (apply_correction : bool) (count : Z)
    (st : VEML7700AutoGain) : VemlAutoResult * VEML7700AutoGain :=
  let lux := readLuxAuto_lux st count in
  let lux :=
    if apply_correction && (veml_gain st =? VEML7700_GAIN_1_8)
       && (veml_it st =? VEML7700_IT_25MS)
    then Calibration.correction_pow lux
    else lux in
  if count <? low_threshold st then
    ({| val := lux; type := TOO_LOW |}, increase st)
  else if count >? high_threshold st then
    ({| val := lux; type := TOO_HIGH |}, decrease st)
  else
    ({| val := lux; type := GOOD |}, st).

(** A setting that a call left alone, in the object and in the register. *)
Definition same_gain (st st' : VEML7700AutoGain) : Prop :=
  veml_gain st' = veml_gain st /\
  Device.getGain (dev st') = Device.getGain (dev st).
Definition same_it (st st' : VEML7700AutoGain) : Prop :=
  veml_it st' = veml_it st /\
  Device.getIntegrationTime (dev st')
  = Device.getIntegrationTime (dev st).

(** After a change of the integration time: the register field holds the
    new code of the object, the gain field is as before and the sensor is
    enabled.  Likewise after a change of the gain. *)
Definition it_written (st st' : VEML7700AutoGain) : Prop :=
  Device.getIntegrationTime (dev st') = veml_it st' /\
  Device.getGain (dev st') = Device.getGain (dev st) /\
  Device.enabled (dev st') = true.

Definition gain_written (st st' : VEML7700AutoGain) : Prop :=
  Device.getGain (dev st') = veml_gain st' /\
  Device.getIntegrationTime (dev st')
  = Device.getIntegrationTime (dev st) /\
  Device.enabled (dev st') = true.

(** The local copies agree with the register fields. *)
Definition coherent (st : VEML7700AutoGain) : Prop :=
  veml_gain st = Device.getGain (dev st) /\
  veml_it st = Device.getIntegrationTime (dev st).

End AutoGain.

(** ** [Adafruit_VEML7700::optimizeParams] *)

Module Optimize.
Import Device Calibration.

(** The object: the device and the two thresholds of the constructor. *)
Record Adafruit_VEML7700 : Type := mkDriver {
  hw : device;
  lowThresh : Z;
  hiThresh : Z
}.

Definition gainVals : list Z :=
  [VEML7700_GAIN_1_8; VEML7700_GAIN_1_4; VEML7700_GAIN_1; VEML7700_GAIN_2].
Definition gainValsMaxIndex : Z := Z.of_nat (length gainVals) - 1.

Definition integrationTimeVals : list Z :=
  [VEML7700_IT_25MS; VEML7700_IT_50MS; VEML7700_IT_100MS;
   VEML7700_IT_200MS; VEML7700_IT_400MS; VEML7700_IT_800MS].
Definition integrationValsMaxIndex : Z :=
  Z.of_nat (length integrationTimeVals) - 1.

(** The two [if] cascades of [optimizeParams]: the new [gIndex], the new
    [iIndex] and [somethingChanged]. *)
Definition choose (raw lowT hiT gIndex iIndex : Z) : Z * Z * bool :=
  if raw <=? lowT then
    if gIndex <? gainValsMaxIndex then (gIndex + 1, iIndex, true)
    else if iIndex <? integrationValsMaxIndex then (gIndex, iIndex + 1, true)
    else (gIndex, iIndex, false)
  else if raw >? hiT then
    if iIndex >? 2 then (gIndex, iIndex - 1, true)
    else if gIndex >? 0 then (gIndex - 1, iIndex, true)
    else if iIndex >? 0 then (gIndex, iIndex - 1, true)
    else (gIndex, iIndex, false)
  else (gIndex, iIndex, false).

(** [bool optimizeParams(uint16_t raw)] *)
Definition optimizeParams (raw : Z) (st : Adafruit_VEML7700)
    : bool * Adafruit_VEML7700 :=
  let gIndex := at_index gainIndex (getGain (hw st)) 0 in
  let iIndex := at_index integrationTimeIndex (getIntegrationTime (hw st)) 0 in
  let '(gIndex, iIndex, somethingChanged) :=
    choose raw (lowThresh st) (hiThresh st) gIndex iIndex in
  if somethingChanged then
    let wasEnabled := enabled (hw st) in
    let d := enable false (hw st) in
    let d := setIntegrationTime (at_index integrationTimeVals iIndex 0) d in
    let d := setGain (at_index gainVals gIndex 0) d in
    let d := enable wasEnabled d in
    (true, {| hw := d; lowThresh := lowThresh st; hiThresh := hiThresh st |})
  else (false, st).

(** The constructor with its default thresholds, then [begin]. *)
Definition begin (d : device) : Adafruit_VEML7700 :=
  {| hw := Device.begin d; lowThresh := 1000; hiThresh := 30000 |}.

End Optimize.

(** ** [Adafruit_VEML7700::luxAutoSensor] *)

Module AutoSensor.
Import Device.

(** [const byte computetime = 20;] *)
Definition computetime : Z := 20.

Definition ChartGain (G : Z) : Z :=
  if G =? 1 then VEML7700_GAIN_1_8
  else if G =? 2 then VEML7700_GAIN_1_4
  else if G =? 3 then VEML7700_GAIN_1
  else VEML7700_GAIN_2.

Definition ChartIT (IT : Z) : Z :=
  if IT =? -2 then VEML7700_IT_25MS
  else if IT =? -1 then VEML7700_IT_50MS
  else if IT =? 0 then VEML7700_IT_100MS
  else if IT =? 1 then VEML7700_IT_200MS
  else if IT =? 2 then VEML7700_IT_400MS
  else VEML7700_IT_800MS.

(** [uint16_t IntegrationTime(const int8_t IT)]; the [switch] covers every
    value of [ChartIT], the last arm is never taken. *)
Definition IntegrationTime (IT : Z) : Z :=
  let c := ChartIT IT in
  if c =? VEML7700_IT_800MS then 800
  else if c =? VEML7700_IT_400MS then 400
  else if c =? VEML7700_IT_200MS then 200
  else if c =? VEML7700_IT_100MS then 100
  else if c =? VEML7700_IT_50MS then 50
  else if c =? VEML7700_IT_25MS then 25
  else 0.

(** [float ChartResolution(const int8_t IT, const int8_t G)] *)
Definition ChartResolution (IT G : Z) : Q :=
  let base : Q := 0.0036%Q in
  let g := ChartGain G in
  let base :=
    if g =? VEML7700_GAIN_1 then (base * 2)%Q
    else if g =? VEML7700_GAIN_1_4 then (base * 8)%Q
    else if g =? VEML7700_GAIN_1_8 then (base * 16)%Q
    else base in
  let c := ChartIT IT in
  if c =? VEML7700_IT_400MS then (base * 2)%Q
  else if c =? VEML7700_IT_200MS then (base * 4)%Q
  else if c =? VEML7700_IT_100MS then (base * 8)%Q
  else if c =? VEML7700_IT_50MS then (base * 16)%Q
  else if c =? VEML7700_IT_25MS then (base * 32)%Q
  else base.

(** The value of "Return 3". *)
Definition corrected (als : Z) : Q :=
  let a := inject_Z als in
  (a * (1.0023 + a * (0.000081488 + a * (-9.3924e-9 + 6.0135e-13 * a))))%Q.

(** Where a loop of [luxAutoSensor] leaves: a [return] with its value, or
    the [break] of the first loop.  [reads] counts the reads of [ALS_Data]
    so far, one per iteration. *)
Inductive outcome : Type :=
| Returned (lux : Q) (reads : nat) (integrationtime gain : Z) (d : device)
| Broke (reads : nat) (integrationtime gain : Z) (d : device).

(** The first [do ... while (1)]: "first try: low light environement".
    [als_at k] is what the [k]-th read of [ALS_Data] returns. *)
Fixpoint low_light (fuel : nat) (als_at : nat -> Z) (k : nat)
    (integrationtime gain : Z) (first : bool) (d : device)
    : option outcome :=
  match fuel with
  | O => None
  | S fuel' =>
      let d := setIntegrationTime (ChartIT integrationtime) d in
      let d := setGain (ChartGain gain) d in
      let d := enable true (enable false d) in
      let d := delay (IntegrationTime integrationtime + computetime) d in
      let als := als_at k in
      if als <=? 100 then
        if gain <? 4 then
          low_light fuel' als_at (S k) integrationtime (gain + 1) false d
        else if integrationtime <? 3 then
          low_light fuel' als_at (S k) (integrationtime + 1) gain false d
        else
          Some (Returned
                  (inject_Z als * ChartResolution integrationtime gain)%Q
                  (S k) integrationtime gain d)
      else if first then Some (Broke (S k) integrationtime gain d)
      else
        Some (Returned
                (inject_Z als * ChartResolution integrationtime gain)%Q
                (S k) integrationtime gain d)
  end.

(** The second [do ... while (1)], entered after [integrationtime--]. *)
Fixpoint high_light (fuel : nat) (als_at : nat -> Z) (k : nat)
    (integrationtime gain : Z) (d : device) : option outcome :=
  match fuel with
  | O => None
  | S fuel' =>
      let d := setIntegrationTime (ChartIT integrationtime) d in
      let d := enable true (enable false d) in
      let d := delay (IntegrationTime integrationtime + computetime) d in
      let als := als_at k in
      if als <? 10000 then
        Some (Returned (corrected als) (S k) integrationtime gain d)
      else
        let integrationtime := integrationtime - 1 in
        if integrationtime <=? -3 then
          Some (Returned (-2)%Q (S k) integrationtime gain d)
        else high_light fuel' als_at (S k) integrationtime gain d
  end.

(** [float luxAutoSensor()]: at most [fuel] iterations of each loop. *)
Definition luxAutoSensor (fuel : nat) (als_at : nat -> Z) (d : device)
    : option outcome :=
  match low_light fuel als_at 0%nat 0 1 true d with
  | Some (Broke k integrationtime gain d') =>
      high_light fuel als_at k (integrationtime - 1) gain d'
  | r => r
  end.

(** The first reading is above 100 and the two readings of the second
    loop, at 50 ms and at 25 ms, are both 10000 or more. *)
Definition out_of_range (als_at : nat -> Z) : Prop :=
  100 < als_at 0%nat /\ 10000 <= als_at 1%nat /\ 10000 <= als_at 2%nat.

End AutoSensor.

(** ** The data model of the specification

    These definitions follow the words of the specification, not the code;
    the theorems below compare the code with them. *)

Module Spec.

(** Gain coefficient: 1/8x -> 8.0, 1/4x -> 4.0, 1x -> 1.0, 2x -> 0.5. *)
Definition gain_coefficient (g : Z) : Q :=
  if g =? VEML7700_GAIN_1_8 then 8
  else if g =? VEML7700_GAIN_1_4 then 4
  else if g =? VEML7700_GAIN_1 then 1
  else if g =? VEML7700_GAIN_2 then 0.5
  else 0.

(** Integration coefficient: 25 -> 4.0, 50 -> 2.0, 100 -> 1.0, 200 -> 0.5,
    400 -> 0.25, 800 -> 0.125. *)
Definition it_coefficient (i : Z) : Q :=
  if i =? VEML7700_IT_25MS then 4
  else if i =? VEML7700_IT_50MS then 2
  else if i =? VEML7700_IT_100MS then 1
  else if i =? VEML7700_IT_200MS then 0.5
  else if i =? VEML7700_IT_400MS then 0.25
  else if i =? VEML7700_IT_800MS then 0.125
  else 0.

(** [normalize(raw, gain, it)] and [toLux(raw, gain, it)]. *)
Definition normalize (raw g i : Z) : Q :=
  (inject_Z raw * gain_coefficient g * it_coefficient i)%Q.

Definition toLux (raw g i : Z) : Q := (normalize raw g i * 0.0576)%Q.

(** [applyNonlinearity], the quartic written as a power series. *)
Definition applyNonlinearity (lux : Q) : Q :=
  (6.0135e-13 * (lux * lux * lux * lux) - 9.3924e-9 * (lux * lux * lux)
   + 8.1488e-5 * (lux * lux) + 1.0023 * lux)%Q.

(** The pair that gets the correction: gain 1/8x with 25 ms. *)
Definition corrected_pair (g i : Z) : bool :=
  (g =? VEML7700_GAIN_1_8) && (i =? VEML7700_IT_25MS).

(** [calibratedLux(raw, gain, it)]. *)
Definition calibratedLux (raw g i : Z) : Q :=
  if corrected_pair g i
  then applyNonlinearity (toLux raw g i)
  else toLux raw g i.

(** Position of a gain in the order 1/8 < 1/4 < 1x < 2x. *)
Definition gain_rank (g : Z) : Z :=
  if g =? VEML7700_GAIN_1_8 then 0
  else if g =? VEML7700_GAIN_1_4 then 1
  else if g =? VEML7700_GAIN_1 then 2
  else if g =? VEML7700_GAIN_2 then 3
  else -1.

(** Dwell period of an integration-time code, in milliseconds. *)
Definition it_ms (i : Z) : Z :=
  if i =? VEML7700_IT_25MS then 25
  else if i =? VEML7700_IT_50MS then 50
  else if i =? VEML7700_IT_100MS then 100
  else if i =? VEML7700_IT_200MS then 200
  else if i =? VEML7700_IT_400MS then 400
  else if i =? VEML7700_IT_800MS then 800
  else -1.

(** One step up / down the ladder of gains. *)
Definition gain_up (g g' : Z) : Prop :=
  valid_gain g' /\ gain_rank g' = gain_rank g + 1.
Definition gain_down (g g' : Z) : Prop :=
  valid_gain g' /\ gain_rank g' = gain_rank g - 1.

(** One step up / down the ladder of integration times: each step doubles
    or halves the dwell period. *)
Definition it_up (i i' : Z) : Prop :=
  valid_it i' /\ it_ms i' = 2 * it_ms i.
Definition it_down (i i' : Z) : Prop :=
  valid_it i' /\ 2 * it_ms i' = it_ms i.

End Spec.

(** ** Concrete objects for the examples *)

Module Scenario.

(** A [VEML7700AutoGain] after [begin], [setGain] and [setIntegrationTime];
    thresholds 100 and 10000, as [begin] sets them. *)
Definition auto_at (g i : Z) : AutoGain.VEML7700AutoGain :=
  AutoGain.setIntegrationTime i
    (AutoGain.setGain g (AutoGain.begin Device.power_up)).

(** An [Adafruit_VEML7700] after [begin] and the two setters; thresholds
    1000 and 30000. *)
Definition driver_at (g i : Z) : Optimize.Adafruit_VEML7700 :=
  let st := Optimize.begin Device.power_up in
  {| Optimize.hw :=
       Device.setIntegrationTime i (Device.setGain g (Optimize.hw st));
     Optimize.lowThresh := Optimize.lowThresh st;
     Optimize.hiThresh := Optimize.hiThresh st |}.

End Scenario.

(** ** The white channel of [Adafruit_VEML7700] *)

Module White.
Import Device Calibration.

(** [float readWhite()], on the count that [White_Data->read()] returns. *)
Definition readWhite (d : device) (white : Z) : Q :=
  (normalize_resolution d (inject_Z white) * 0.0576)%Q.

(** The correction of [readWhiteNormalized], as it is written there. *)
Definition white_correction (white : Q) : Q :=
  ((((2e-15 * white + 4e-12) * white + 9e-6) * white + 1.0179) * white
   - 11.052)%Q.

(** [float readWhiteNormalized()] *)
Definition readWhiteNormalized (d : device) (w : Z) : Q :=
  let white := readWhite d w in
  if (getGain d =? VEML7700_GAIN_1_8)
     && (getIntegrationTime d =? VEML7700_IT_25MS)
  then white_correction white
  else white.

End White.

(** ** The informative getters of [Adafruit_VEML7700] *)

Module Info.
Import Device Calibration.

(** [double getIntegrationTimeFactor(void)]: an index past the table is
    replaced by 0. *)
Definition getIntegrationTimeFactor (d : device) : Q :=
  let itIndex := ALS_Integration_Time d in
  let itIndex :=
    if itIndex >=? Z.of_nat (length integrationTimeCoeff) then 0
    else itIndex in
  (1 / at_index integrationTimeCoeff itIndex 0)%Q.

(** [double getGainValue(void)] *)
Definition getGainValue (d : device) : Q :=
  (1 / at_index gainCoeff (ALS_Gain d) 0)%Q.

(** The tables of [getRefreshTime]. *)
Definition integrationTimes : list Z := [25; 50; 100; 200; 400; 800].
Definition powerSaverTimes : list Z := [500; 1000; 2000; 4000].
Definition powerOnWait : Z := 3.

(** [uint16_t getRefreshTime()]; [psm] is what [getPowerSaveMode()]
    returns, a field of two bits. *)
Definition getRefreshTime (psm : Z) (d : device) : Z :=
  let iIndex := at_index integrationTimeIndex (getIntegrationTime d) 0 in
  at_index powerSaverTimes psm 0 + at_index integrationTimes iIndex 0
  + powerOnWait.

End Info.

(** ** Sequences of calls *)

Module Session.
Import AutoGain.

(** The calls a sketch makes on a [VEML7700AutoGain] after [begin]; a read
    carries the count that the sensor delivers for it. *)
Inductive call : Type :=
| Read (apply_correction : bool) (count : Z)
| SetGain (gain : Z)
| SetIntegrationTime (it : Z)
| SetAutoThreshold (low high : Z)
| Enable (en : bool).

Definition step (c : call) (st : VEML7700AutoGain) : VEML7700AutoGain :=
  match c with
  | Read ac count => snd (readLuxAuto ac count st)
  | SetGain g => setGain g st
  | SetIntegrationTime i => setIntegrationTime i st
  | SetAutoThreshold lo hi => setAutoThreshold lo hi st
  | Enable en => enable en st
  end.

Fixpoint run (cs : list call) (st : VEML7700AutoGain) : VEML7700AutoGain :=
  match cs with
  | [] => st
  | c :: cs => run cs (step c st)
  end.

(** The setters are given one of the codes their documentation lists. *)
Definition documented (c : call) : Prop :=
  match c with
  | SetGain g => valid_gain g
  | SetIntegrationTime i => valid_it i
  | _ => True
  end.

(** Successive calls of [optimizeParams], one raw count each. *)
Fixpoint optimize (raws : list Z) (st : Optimize.Adafruit_VEML7700)
    : Optimize.Adafruit_VEML7700 :=
  match raws with
  | [] => st
  | raw :: raws => optimize raws (snd (Optimize.optimizeParams raw st))
  end.

(** Rung of an integration-time code on the ladder 25 < 50 < 100 < 200 <
    400 < 800, and rung of an exposure: the rungs of its gain and of its
    integration time together, from 0 at (1/8x, 25 ms) to 8 at (2x, 800 ms). *)
Definition it_rank (i : Z) : Z :=
  if i =? VEML7700_IT_25MS then 0
  else if i =? VEML7700_IT_50MS then 1
  else if i =? VEML7700_IT_100MS then 2
  else if i =? VEML7700_IT_200MS then 3
  else if i =? VEML7700_IT_400MS then 4
  else if i =? VEML7700_IT_800MS then 5
  else -1.

Definition exposure_rank (g i : Z) : Z := Spec.gain_rank g + it_rank i.

(** The time spent in [delay], in milliseconds, in a stretch of the bus
    log. *)
Fixpoint waited (evs : list Device.event) : Z :=
  match evs with
  | [] => 0
  | Device.Delay ms :: evs => ms + waited evs
  | _ :: evs => waited evs
  end.

End Session.

(** * Theorems *)

(** Case analysis on a valid code. *)
Ltac split_codes H :=
  unfold valid_gain, valid_it, gain_codes, it_codes in H; simpl in H;
  repeat (destruct H as [H | H]); try contradiction; subst.

(** Resolve a cascade of tests [x =? c] on a code that is not valid. *)
Ltac not_a_code H :=
  unfold valid_gain, valid_it, gain_codes, it_codes in H; simpl in H;
  repeat match goal with
         | |- context [?x =? ?c] =>
             destruct (Z.eqb_spec x c);
             [ exfalso; apply H; subst; simpl; tauto | ]
         end.

(** Close a case whose hypotheses on concrete codes contradict each other. *)
Ltac absurd_code :=
  exfalso;
  match goal with
  | H : ?a = ?b |- _ => discriminate H
  | H : ?a <> ?a |- _ => apply H; reflexivity
  | H : (_ < _)%Z |- _ => vm_compute in H; discriminate H
  | H : (_ <= _)%Z |- _ => vm_compute in H; apply H; reflexivity
  end.

Section StepFunctions.
Import Step.

Lemma nextIt_valid (it : Z) :
  valid_it it -> it <> VEML7700_IT_800MS -> Spec.it_up it (nextIt it).
Proof.
  intros H Hmax; split_codes H; try (exfalso; apply Hmax; reflexivity);
    split; try reflexivity; unfold valid_it; simpl; tauto.
Qed.

Lemma prevIt_valid (it : Z) :
  valid_it it -> it <> VEML7700_IT_25MS -> Spec.it_down it (prevIt it).
Proof.
  intros H Hmin; split_codes H; try (exfalso; apply Hmin; reflexivity);
    split; try reflexivity; unfold valid_it; simpl; tauto.
Qed.

Lemma nextGain_valid (g : Z) :
  valid_gain g -> g <> VEML7700_GAIN_2 -> Spec.gain_up g (nextGain g).
Proof.
  intros H Hmax; split_codes H; try (exfalso; apply Hmax; reflexivity);
    split; try reflexivity; unfold valid_gain; simpl; tauto.
Qed.

Lemma prevGain_valid (g : Z) :
  valid_gain g -> g <> VEML7700_GAIN_1_8 -> Spec.gain_down g (prevGain g).
Proof.
  intros H Hmin; split_codes H; try (exfalso; apply Hmin; reflexivity);
    split; try reflexivity; unfold valid_gain; simpl; tauto.
Qed.

(** C10.  [prevIt]/[nextIt] and [prevGain]/[nextGain] undo each other on
    the valid codes away from the extreme they would step past, and each of
    the four functions returns 255 on a code that is not valid and when
    asked to step past the extreme setting. *)
Theorem step_functions_inverse_and_total :
  (forall it, valid_it it -> it <> VEML7700_IT_800MS ->
              prevIt (nextIt it) = it) /\
  (forall it, valid_it it -> it <> VEML7700_IT_25MS ->
              nextIt (prevIt it) = it) /\
  (forall g, valid_gain g -> g <> VEML7700_GAIN_2 ->
             prevGain (nextGain g) = g) /\
  (forall g, valid_gain g -> g <> VEML7700_GAIN_1_8 ->
             nextGain (prevGain g) = g) /\
  (forall it, ~ valid_it it -> nextIt it = 255 /\ prevIt it = 255) /\
  (forall g, ~ valid_gain g -> nextGain g = 255 /\ prevGain g = 255) /\
  nextIt VEML7700_IT_800MS = 255 /\ prevIt VEML7700_IT_25MS = 255 /\
  nextGain VEML7700_GAIN_2 = 255 /\ prevGain VEML7700_GAIN_1_8 = 255.
Proof.
  split; [ | split; [ | split; [ | split; [ | split; [ | split ] ] ] ] ].
  - intros it H Hmax; split_codes H; try reflexivity;
      exfalso; apply Hmax; reflexivity.
  - intros it H Hmin; split_codes H; try reflexivity;
      exfalso; apply Hmin; reflexivity.
  - intros g H Hmax; split_codes H; try reflexivity;
      exfalso; apply Hmax; reflexivity.
  - intros g H Hmin; split_codes H; try reflexivity;
      exfalso; apply Hmin; reflexivity.
  - intros it H; split.
    + unfold nextIt; not_a_code H; reflexivity.
    + unfold prevIt; not_a_code H; reflexivity.
  - intros g H; split.
    + unfold nextGain; not_a_code H; reflexivity.
    + unfold prevGain; not_a_code H; reflexivity.
  - repeat split.
Qed.

Lemma step_functions_inverse_and_total_witness :
  prevIt (nextIt VEML7700_IT_50MS) = VEML7700_IT_50MS /\
  nextGain (prevGain VEML7700_GAIN_1) = VEML7700_GAIN_1 /\
  nextIt 5 = 255 /\ prevGain 200 = 255.
Proof.
  destruct step_functions_inverse_and_total
    as (Hpn & _ & _ & Hnp & Hbad_it & Hbad_g & _).
  split; [ | split; [ | split ] ].
  - apply Hpn; [ unfold valid_it; simpl; tauto | discriminate ].
  - apply Hnp; [ unfold valid_gain; simpl; tauto | discriminate ].
  - apply Hbad_it. unfold valid_it; simpl. intuition discriminate.
  - apply Hbad_g. unfold valid_gain; simpl. intuition discriminate.
Defined.

End StepFunctions.

Section CalibrationMaths.
Import Device Calibration AutoGain.

(** One case per valid (gain, integration time) pair, each an identity of
    rational expressions in the raw count. *)
Ltac by_codes Hg Hi :=
  split_codes Hg; split_codes Hi; simpl; cbn;
  try unfold LUX_PER_COUNT; repeat split; field.

(** The two ways the sources write the quartic agree, and both are the
    power series of the specification. *)
Lemma correction_pow_correction (lux : Q) :
  (correction_pow lux == correction lux)%Q.
Proof. unfold correction_pow, correction; ring. Qed.

Lemma correction_applyNonlinearity (lux : Q) :
  (correction lux == Spec.applyNonlinearity lux)%Q.
Proof. unfold correction, Spec.applyNonlinearity; ring. Qed.

Lemma lazyNormalize_normalize (st : VEML7700AutoGain) (raw : Z) :
  valid_gain (veml_gain st) -> valid_it (veml_it st) ->
  (lazyNormalize st (inject_Z raw)
   == Spec.normalize raw (veml_gain st) (veml_it st))%Q.
Proof.
  intros Hg Hi; unfold lazyNormalize, Spec.normalize.
  destruct st as [d i g lo hi]; simpl in *.
  by_codes Hg Hi.
Qed.

Lemma convertToLux_ret_toLux (raw g i : Z) :
  valid_gain g -> valid_it i ->
  (convertToLux_ret g i raw == Spec.toLux raw g i)%Q.
Proof.
  intros Hg Hi;
    unfold convertToLux_ret, Spec.toLux, Spec.normalize, at_index.
  by_codes Hg Hi.
Qed.

(** C1.  For a raw count in [0, 65535] and valid gain and integration-time
    codes, the lux that [readLuxAuto] computes through [lazyNormalize] and
    the lux that [convertToLux] computes through its tables are both the
    raw count times the gain coefficient, times the integration
    coefficient, times 0.0576 (rounding apart); it is what [readLuxAuto]
    and [convertToLux] return wherever the correction is not applied. *)
Theorem lux_is_scaled_raw_count (raw g i : Z) :
  0 <= raw <= 65535 -> valid_gain g -> valid_it i ->
  let lux :=
    (inject_Z raw * Spec.gain_coefficient g * Spec.it_coefficient i
     * 0.0576)%Q in
  (forall st, veml_gain st = g -> veml_it st = i ->
     (readLuxAuto_lux st raw == lux)%Q /\
     (forall ac, ac && Spec.corrected_pair g i = false ->
                 (val (fst (readLuxAuto ac raw st)) == lux)%Q)) /\
  (convertToLux_ret g i raw == lux)%Q /\
  (forall d, getGain d = g -> getIntegrationTime d = i ->
     Spec.corrected_pair g i = false -> (convertToLux d raw == lux)%Q).
Proof.
  intros _ Hg Hi lux.
  assert (Hret : (convertToLux_ret g i raw == lux)%Q)
    by (apply convertToLux_ret_toLux; assumption).
  split; [ | split ].
  - intros st Eg Ei.
    assert (Hlux : (readLuxAuto_lux st raw == lux)%Q).
    { unfold readLuxAuto_lux. rewrite lazyNormalize_normalize.
      - rewrite Eg, Ei. reflexivity.
      - rewrite Eg; assumption.
      - rewrite Ei; assumption. }
    split; [ exact Hlux | ].
    intros ac Hac. unfold readLuxAuto.
    rewrite Eg, Ei, <- andb_assoc. fold (Spec.corrected_pair g i).
    rewrite Hac.
    destruct (raw <? low_threshold st);
      [ | destruct (raw >? high_threshold st) ]; exact Hlux.
  - exact Hret.
  - intros d Eg Ei Hc. unfold convertToLux. rewrite Eg, Ei.
    fold (Spec.corrected_pair g i). rewrite Hc. exact Hret.
Qed.

Lemma lux_is_scaled_raw_count_witness :
  (readLuxAuto_lux (Scenario.auto_at VEML7700_GAIN_1_4 VEML7700_IT_50MS)
     1000 == 460.8)%Q /\
  (convertToLux
     (Scenario.driver_at VEML7700_GAIN_1_4 VEML7700_IT_50MS).(Optimize.hw)
     1000 == 460.8)%Q.
Proof.
  assert (Hraw : 0 <= 1000 <= 65535) by lia.
  assert (Hg : valid_gain VEML7700_GAIN_1_4)
    by (unfold valid_gain; simpl; tauto).
  assert (Hi : valid_it VEML7700_IT_50MS)
    by (unfold valid_it; simpl; tauto).
  destruct (lux_is_scaled_raw_count 1000 VEML7700_GAIN_1_4 VEML7700_IT_50MS
              Hraw Hg Hi) as (Hauto & _ & Htable).
  split.
  - destruct (Hauto (Scenario.auto_at VEML7700_GAIN_1_4 VEML7700_IT_50MS)
                eq_refl eq_refl) as [H _].
    rewrite H. reflexivity.
  - rewrite (Htable
               (Scenario.driver_at VEML7700_GAIN_1_4
                  VEML7700_IT_50MS).(Optimize.hw)
               eq_refl eq_refl eq_refl).
    reflexivity.
Defined.

(** With [apply_correction = false], the documented switch that turns the
    correction off, [readLuxAuto] at gain 1/8x and 25 ms returns the
    converted lux value itself. *)
Lemma readLuxAuto_without_correction :
  let st := Scenario.auto_at VEML7700_GAIN_1_8 VEML7700_IT_25MS in
  veml_gain st = VEML7700_GAIN_1_8 /\ veml_it st = VEML7700_IT_25MS /\
  (val (fst (readLuxAuto false 1000 st)) == 1843.2)%Q /\
  (Spec.toLux 1000 (veml_gain st) (veml_it st) == 1843.2)%Q /\
  ~ (val (fst (readLuxAuto false 1000 st))
     == Spec.calibratedLux 1000 (veml_gain st) (veml_it st))%Q.
Proof.
  cbv zeta.
  split; [ reflexivity | split; [ reflexivity | ] ].
  split; [ vm_compute; reflexivity | split; [ vm_compute; reflexivity | ] ].
  intros H; vm_compute in H; discriminate H.
Qed.

(** C2.  [convertToLux], [readLuxNormalized] and [readLuxAuto] with its
    correction on (the default) return the corrected lux value at gain 1/8x
    with 25 ms and the converted lux value unchanged at every other valid
    pair; with the correction switched off [readLuxAuto] returns the
    converted lux value at every pair. *)
Theorem correction_only_at_1_8_25ms (raw g i : Z) :
  valid_gain g -> valid_it i ->
  (forall d, getGain d = g -> getIntegrationTime d = i ->
     (convertToLux d raw == Spec.calibratedLux raw g i)%Q /\
     (readLuxNormalized d raw == Spec.calibratedLux raw g i)%Q) /\
  (forall st, veml_gain st = g -> veml_it st = i ->
     (val (fst (readLuxAuto true raw st))
      == Spec.calibratedLux raw g i)%Q /\
     (val (fst (readLuxAuto false raw st)) == Spec.toLux raw g i)%Q) /\
  (Spec.calibratedLux raw g i ==
     if Spec.corrected_pair g i
     then Spec.applyNonlinearity (Spec.toLux raw g i)
     else Spec.toLux raw g i)%Q /\
  (Spec.corrected_pair g i = true <->
     g = VEML7700_GAIN_1_8 /\ i = VEML7700_IT_25MS).
Proof.
  intros Hg Hi.
  split; [ | split; [ | split ] ].
  - intros [sd i' g' log] Eg Ei; unfold getGain, getIntegrationTime in *;
      simpl in *; subst g' i'.
    unfold convertToLux, readLuxNormalized, readLux, normalize_resolution,
      convertToLux_ret, Spec.calibratedLux, Spec.toLux, Spec.normalize,
      Spec.applyNonlinearity, correction, getGain, getIntegrationTime,
      at_index.
    by_codes Hg Hi.
  - intros [d i' g' lo hi] Eg Ei; simpl in *; subst g' i'.
    unfold readLuxAuto.
    split.
    + destruct (raw <? _); [ | destruct (raw >? _) ]; cbn [fst val];
        unfold readLuxAuto_lux, lazyNormalize, Spec.calibratedLux,
          Spec.toLux, Spec.normalize, Spec.applyNonlinearity,
          correction_pow;
        by_codes Hg Hi.
    + destruct (raw <? _); [ | destruct (raw >? _) ]; cbn [fst val];
        unfold readLuxAuto_lux, lazyNormalize, Spec.calibratedLux,
          Spec.toLux, Spec.normalize;
        by_codes Hg Hi.
  - reflexivity.
  - unfold Spec.corrected_pair. rewrite andb_true_iff, !Z.eqb_eq.
    reflexivity.
Qed.

Lemma correction_only_at_1_8_25ms_witness :
  (convertToLux
     (Scenario.driver_at VEML7700_GAIN_1_8 VEML7700_IT_25MS).(Optimize.hw)
     1000
   == Spec.calibratedLux 1000 VEML7700_GAIN_1_8 VEML7700_IT_25MS)%Q /\
  (val (fst (readLuxAuto true 1000
               (Scenario.auto_at VEML7700_GAIN_1 VEML7700_IT_100MS)))
   == Spec.calibratedLux 1000 VEML7700_GAIN_1 VEML7700_IT_100MS)%Q.
Proof.
  split.
  - assert (Hg : valid_gain VEML7700_GAIN_1_8)
      by (unfold valid_gain; simpl; tauto).
    assert (Hi : valid_it VEML7700_IT_25MS)
      by (unfold valid_it; simpl; tauto).
    destruct (correction_only_at_1_8_25ms 1000 _ _ Hg Hi) as (Htable & _).
    destruct (Htable
                (Scenario.driver_at VEML7700_GAIN_1_8
                   VEML7700_IT_25MS).(Optimize.hw)
                eq_refl eq_refl) as [H _].
    exact H.
  - assert (Hg : valid_gain VEML7700_GAIN_1)
      by (unfold valid_gain; simpl; tauto).
    assert (Hi : valid_it VEML7700_IT_100MS)
      by (unfold valid_it; simpl; tauto).
    destruct (correction_only_at_1_8_25ms 1000 _ _ Hg Hi) as (_ & Hauto & _).
    destruct (Hauto (Scenario.auto_at VEML7700_GAIN_1 VEML7700_IT_100MS)
                eq_refl eq_refl) as [H _].
    exact H.
Defined.

End CalibrationMaths.

Section SingleStep.
Import Device Step AutoGain.

Lemma getIntegrationMs_it_ms (st : VEML7700AutoGain) :
  valid_it (veml_it st) -> getIntegrationMs st = Spec.it_ms (veml_it st).
Proof.
  intros Hi; destruct st as [d i g lo hi]; unfold getIntegrationMs;
    simpl in *; split_codes Hi; reflexivity.
Qed.

(** The three outcomes of the threshold tests of [readLuxAuto]. *)
Lemma readLuxAuto_cases (ac : bool) (count : Z) (st : VEML7700AutoGain) :
  let r := readLuxAuto ac count st in
  (count < low_threshold st /\
   type (fst r) = TOO_LOW /\ snd r = increase st) \/
  (low_threshold st <= count /\ high_threshold st < count /\
   type (fst r) = TOO_HIGH /\ snd r = decrease st) \/
  (low_threshold st <= count <= high_threshold st /\
   type (fst r) = GOOD /\ snd r = st).
Proof.
  unfold readLuxAuto.
  destruct (Z.ltb_spec count (low_threshold st)) as [Hlo | Hlo].
  - left. auto.
  - rewrite Z.gtb_ltb.
    destruct (Z.ltb_spec (high_threshold st) count) as [Hhi | Hhi].
    + right; left. auto.
    + right; right. auto.
Qed.

(** C5, counterexample.  A count equal to the low threshold is classified
    GOOD, not TOO_LOW. *)
Lemma count_equal_to_low_threshold_is_good :
  let st := Scenario.auto_at VEML7700_GAIN_1_8 VEML7700_IT_100MS in
  low_threshold st = 100 /\ high_threshold st = 10000 /\
  100 <= low_threshold st /\
  type (fst (readLuxAuto true 100 st)) = GOOD /\
  type (fst (readLuxAuto true 100 st)) <> TOO_LOW.
Proof.
  cbv zeta. repeat split; try reflexivity; try discriminate.
Qed.

(** C5, amended.  With [low < high], [readLuxAuto] classifies the reading
    as TOO_LOW exactly when the count is strictly below the low threshold,
    as TOO_HIGH exactly when it is strictly above the high threshold, and
    as GOOD exactly when it lies inside [low, high], both ends included.
    [optimizeParams], which returns no classification, changes nothing and
    returns false when the count is above its low threshold and not above
    its high threshold. *)
Theorem reading_classification :
  (forall (ac : bool) (count : Z) (st : VEML7700AutoGain),
      low_threshold st < high_threshold st ->
      let t := type (fst (readLuxAuto ac count st)) in
      (t = TOO_LOW <-> count < low_threshold st) /\
      (t = TOO_HIGH <-> count > high_threshold st) /\
      (t = GOOD <-> low_threshold st <= count <= high_threshold st)) /\
  (forall (raw : Z) (st : Optimize.Adafruit_VEML7700),
      Optimize.lowThresh st < raw <= Optimize.hiThresh st ->
      Optimize.optimizeParams raw st = (false, st)).
Proof.
  split.
  - intros ac count st Hband t; subst t.
    destruct (readLuxAuto_cases ac count st)
      as [(H1 & Ht & _) | [(H1 & H2 & Ht & _) | (H1 & Ht & _)]];
      rewrite Ht; repeat split; intros; try discriminate; try lia.
  - intros raw st [Hlo Hhi].
    unfold Optimize.optimizeParams, Optimize.choose.
    destruct (Z.leb_spec raw (Optimize.lowThresh st)); [ lia | ].
    rewrite Z.gtb_ltb.
    destruct (Z.ltb_spec (Optimize.hiThresh st) raw); [ lia | ].
    reflexivity.
Qed.

Lemma reading_classification_witness :
  type (fst (readLuxAuto true 50
               (Scenario.auto_at VEML7700_GAIN_1 VEML7700_IT_100MS)))
  = TOO_LOW /\
  Optimize.optimizeParams 5000
    (Scenario.driver_at VEML7700_GAIN_1 VEML7700_IT_100MS)
  = (false, Scenario.driver_at VEML7700_GAIN_1 VEML7700_IT_100MS).
Proof.
  destruct reading_classification as [Hauto Hopt].
  split.
  - assert (Hband : low_threshold
                      (Scenario.auto_at VEML7700_GAIN_1 VEML7700_IT_100MS)
                    < high_threshold
                        (Scenario.auto_at VEML7700_GAIN_1 VEML7700_IT_100MS))
      by (simpl; lia).
    destruct (Hauto true 50 _ Hband) as ((_ & Hlow) & _).
    apply Hlow. simpl. lia.
  - apply Hopt. simpl. lia.
Defined.

(** C7.  A count inside [low, high] gives GOOD and leaves the whole object
    as it was: gain, integration time, thresholds, the shutdown bit and the
    bus (nothing is written). *)
Theorem readLuxAuto_good_is_a_no_op
    (ac : bool) (count : Z) (st : VEML7700AutoGain) :
  low_threshold st <= count <= high_threshold st ->
  type (fst (readLuxAuto ac count st)) = GOOD /\
  snd (readLuxAuto ac count st) = st /\
  enabled (dev (snd (readLuxAuto ac count st))) = enabled (dev st).
Proof.
  intros Hin.
  destruct (readLuxAuto_cases ac count st)
    as [(H1 & _) | [(H1 & H2 & _) | (_ & Ht & Hst)]]; try lia.
  rewrite Ht, Hst. auto.
Qed.

Lemma readLuxAuto_good_is_a_no_op_witness :
  let st := Scenario.auto_at VEML7700_GAIN_1_4 VEML7700_IT_200MS in
  type (fst (readLuxAuto true 5000 st)) = GOOD /\
  snd (readLuxAuto true 5000 st) = st /\
  enabled (dev (snd (readLuxAuto true 5000 st))) = enabled (dev st).
Proof.
  apply (readLuxAuto_good_is_a_no_op true 5000
           (Scenario.auto_at VEML7700_GAIN_1_4 VEML7700_IT_200MS)).
  simpl. lia.
Defined.

(** Each branch of [increase] and of [decrease] calls one setter. *)
Lemma increase_one_setting (st : VEML7700AutoGain) :
  same_gain st (increase st) \/ same_it st (increase st).
Proof.
  unfold increase, same_gain, same_it.
  destruct (getIntegrationMs st <? 100); [ left; split; reflexivity | ].
  destruct (negb (veml_gain st =? VEML7700_GAIN_MAX));
    [ right; split; reflexivity | ].
  destruct (negb (veml_it st =? VEML7700_IT_MAX));
    left; split; reflexivity.
Qed.

Lemma decrease_one_setting (st : VEML7700AutoGain) :
  same_gain st (decrease st) \/ same_it st (decrease st).
Proof.
  unfold decrease, same_gain, same_it.
  destruct (getIntegrationMs st >? 100); [ left; split; reflexivity | ].
  destruct (negb (veml_gain st =? VEML7700_GAIN_MIN));
    [ right; split; reflexivity | ].
  destruct (negb (veml_it st =? VEML7700_IT_MIN));
    left; split; reflexivity.
Qed.

Lemma increase_at_most_sensitive (st : VEML7700AutoGain) :
  veml_gain st = VEML7700_GAIN_2 -> veml_it st = VEML7700_IT_800MS ->
  increase st = st.
Proof.
  intros Eg Ei; unfold increase, getIntegrationMs; rewrite Eg, Ei.
  reflexivity.
Qed.

Lemma decrease_at_least_sensitive (st : VEML7700AutoGain) :
  veml_gain st = VEML7700_GAIN_1_8 -> veml_it st = VEML7700_IT_25MS ->
  decrease st = st.
Proof.
  intros Eg Ei; unfold decrease, getIntegrationMs; rewrite Eg, Ei.
  reflexivity.
Qed.

(** C6.  One call of [readLuxAuto] leaves the gain or the integration time
    as it was, in the object and in the register; at gain 2x with 800 ms
    under TOO_LOW, and at gain 1/8x with 25 ms under TOO_HIGH, it leaves the
    whole object as it was. *)
Theorem readLuxAuto_changes_at_most_one_setting
    (ac : bool) (count : Z) (st : VEML7700AutoGain) :
  let r := readLuxAuto ac count st in
  (same_gain st (snd r) \/ same_it st (snd r)) /\
  (type (fst r) = TOO_LOW ->
   veml_gain st = VEML7700_GAIN_2 -> veml_it st = VEML7700_IT_800MS ->
   snd r = st) /\
  (type (fst r) = TOO_HIGH ->
   veml_gain st = VEML7700_GAIN_1_8 -> veml_it st = VEML7700_IT_25MS ->
   snd r = st).
Proof.
  cbv zeta.
  destruct (readLuxAuto_cases ac count st)
    as [(_ & Ht & Hst) | [(_ & _ & Ht & Hst) | (_ & Ht & Hst)]];
    rewrite Ht, Hst; (split; [ | split ]); try discriminate.
  - apply increase_one_setting.
  - intros _; apply increase_at_most_sensitive.
  - apply decrease_one_setting.
  - intros _; apply decrease_at_least_sensitive.
  - left; split; reflexivity.
Qed.

Lemma readLuxAuto_changes_at_most_one_setting_witness :
  let st := Scenario.auto_at VEML7700_GAIN_2 VEML7700_IT_800MS in
  snd (readLuxAuto true 7 st) = st.
Proof.
  destruct (readLuxAuto_changes_at_most_one_setting true 7
              (Scenario.auto_at VEML7700_GAIN_2 VEML7700_IT_800MS))
    as (_ & Hlow & _).
  apply Hlow; reflexivity.
Defined.

End SingleStep.

Section Ordering.
Import Device Step AutoGain Optimize.

(** The order in which [increase] raises the two settings, in the object
    and in the registers of the sensor. *)
Lemma increase_order (st : VEML7700AutoGain) :
  valid_gain (veml_gain st) -> valid_it (veml_it st) ->
  let st' := increase st in
  (Spec.it_ms (veml_it st) < 100 ->
   Spec.it_up (veml_it st) (veml_it st') /\
   veml_gain st' = veml_gain st /\ it_written st st') /\
  (100 <= Spec.it_ms (veml_it st) -> veml_gain st <> VEML7700_GAIN_2 ->
   Spec.gain_up (veml_gain st) (veml_gain st') /\
   veml_it st' = veml_it st /\ gain_written st st') /\
  (100 <= Spec.it_ms (veml_it st) -> veml_gain st = VEML7700_GAIN_2 ->
   veml_it st <> VEML7700_IT_800MS ->
   Spec.it_up (veml_it st) (veml_it st') /\
   veml_gain st' = veml_gain st /\ it_written st st') /\
  (veml_gain st = VEML7700_GAIN_2 -> veml_it st = VEML7700_IT_800MS ->
   st' = st) /\
  (coherent st -> coherent st').
Proof.
  intros Hg Hi; cbv zeta.
  destruct st as [[sd ri rg log] i g lo hi]; simpl in Hg, Hi.
  unfold it_written, gain_written, coherent, Spec.it_up, Spec.gain_up,
    valid_gain, valid_it, getGain, getIntegrationTime, enabled.
  split_codes Hg; split_codes Hi; cbn;
    (split; [ | split; [ | split; [ | split ] ] ]);
    intros; try absurd_code; try reflexivity.
  all: repeat split; try reflexivity; tauto.
Qed.

(** The order in which [decrease] lowers the two settings, in the object
    and in the registers of the sensor. *)
Lemma decrease_order (st : VEML7700AutoGain) :
  valid_gain (veml_gain st) -> valid_it (veml_it st) ->
  let st' := decrease st in
  (100 < Spec.it_ms (veml_it st) ->
   Spec.it_down (veml_it st) (veml_it st') /\
   veml_gain st' = veml_gain st /\ it_written st st') /\
  (Spec.it_ms (veml_it st) <= 100 -> veml_gain st <> VEML7700_GAIN_1_8 ->
   Spec.gain_down (veml_gain st) (veml_gain st') /\
   veml_it st' = veml_it st /\ gain_written st st') /\
  (Spec.it_ms (veml_it st) <= 100 -> veml_gain st = VEML7700_GAIN_1_8 ->
   veml_it st <> VEML7700_IT_25MS ->
   Spec.it_down (veml_it st) (veml_it st') /\
   veml_gain st' = veml_gain st /\ it_written st st') /\
  (veml_gain st = VEML7700_GAIN_1_8 -> veml_it st = VEML7700_IT_25MS ->
   st' = st) /\
  (coherent st -> coherent st').
Proof.
  intros Hg Hi; cbv zeta.
  destruct st as [[sd ri rg log] i g lo hi]; simpl in Hg, Hi.
  unfold it_written, gain_written, coherent, Spec.it_down, Spec.gain_down,
    valid_gain, valid_it, getGain, getIntegrationTime, enabled.
  split_codes Hg; split_codes Hi; cbn;
    (split; [ | split; [ | split; [ | split ] ] ]);
    intros; try absurd_code; try reflexivity.
  all: repeat split; try reflexivity; tauto.
Qed.

(** The order in which [optimizeParams] raises the two settings: gain
    first. *)
Lemma optimizeParams_low (raw : Z) (st : Adafruit_VEML7700) :
  valid_gain (getGain (hw st)) -> valid_it (getIntegrationTime (hw st)) ->
  raw <= lowThresh st ->
  let r := optimizeParams raw st in
  let g := getGain (hw st) in
  let i := getIntegrationTime (hw st) in
  let g' := getGain (hw (snd r)) in
  let i' := getIntegrationTime (hw (snd r)) in
  (g <> VEML7700_GAIN_2 -> Spec.gain_up g g' /\ i' = i /\ fst r = true) /\
  (g = VEML7700_GAIN_2 -> i <> VEML7700_IT_800MS ->
   Spec.it_up i i' /\ g' = g /\ fst r = true) /\
  (g = VEML7700_GAIN_2 -> i = VEML7700_IT_800MS ->
   snd r = st /\ fst r = false).
Proof.
  intros Hg Hi Hraw; cbv zeta.
  assert (E : (raw <=? lowThresh st) = true) by (apply Z.leb_le; lia).
  unfold optimizeParams, choose; rewrite E; clear E Hraw.
  destruct st as [[sd i g log] lo hi];
    unfold getGain, getIntegrationTime in *; simpl in Hg, Hi.
  split_codes Hg; split_codes Hi; cbn;
    (split; [ | split ]); intros; try absurd_code;
    repeat split; unfold valid_gain, valid_it; simpl; tauto.
Qed.

(** The order in which [optimizeParams] lowers the two settings. *)
Lemma optimizeParams_high (raw : Z) (st : Adafruit_VEML7700) :
  valid_gain (getGain (hw st)) -> valid_it (getIntegrationTime (hw st)) ->
  lowThresh st <= hiThresh st -> raw > hiThresh st ->
  let r := optimizeParams raw st in
  let g := getGain (hw st) in
  let i := getIntegrationTime (hw st) in
  let g' := getGain (hw (snd r)) in
  let i' := getIntegrationTime (hw (snd r)) in
  (100 < Spec.it_ms i -> Spec.it_down i i' /\ g' = g /\ fst r = true) /\
  (Spec.it_ms i <= 100 -> g <> VEML7700_GAIN_1_8 ->
   Spec.gain_down g g' /\ i' = i /\ fst r = true) /\
  (Spec.it_ms i <= 100 -> g = VEML7700_GAIN_1_8 -> i <> VEML7700_IT_25MS ->
   Spec.it_down i i' /\ g' = g /\ fst r = true) /\
  (g = VEML7700_GAIN_1_8 -> i = VEML7700_IT_25MS ->
   snd r = st /\ fst r = false).
Proof.
  intros Hg Hi Hband Hraw; cbv zeta.
  assert (E1 : (raw <=? lowThresh st) = false) by (apply Z.leb_gt; lia).
  assert (E2 : (raw >? hiThresh st) = true)
    by (rewrite Z.gtb_ltb; apply Z.ltb_lt; lia).
  unfold optimizeParams, choose; rewrite E1, E2; clear E1 E2 Hband Hraw.
  destruct st as [[sd i g log] lo hi];
    unfold getGain, getIntegrationTime in *; simpl in Hg, Hi.
  split_codes Hg; split_codes Hi; cbn;
    (split; [ | split; [ | split ] ]); intros; try absurd_code;
    repeat split; unfold valid_gain, valid_it; simpl; tauto.
Qed.

(** C3, counterexample.  [optimizeParams] at gain 1/8x with 25 ms and a
    count below the low threshold raises the gain and leaves the
    integration time at 25 ms; [readLuxAuto] on a count equal to the low
    threshold reports GOOD and changes nothing. *)
Lemma optimizeParams_raises_gain_first :
  (let st := Scenario.driver_at VEML7700_GAIN_1_8 VEML7700_IT_25MS in
   let st' := snd (optimizeParams 500 st) in
   500 <= lowThresh st /\
   Spec.it_ms (getIntegrationTime (hw st)) < 100 /\
   getIntegrationTime (hw st') = VEML7700_IT_25MS /\
   getGain (hw st') = VEML7700_GAIN_1_4 /\
   ~ Spec.it_up (getIntegrationTime (hw st)) (getIntegrationTime (hw st')))
  /\
  (let st := Scenario.auto_at VEML7700_GAIN_1_8 VEML7700_IT_100MS in
   let r := readLuxAuto true 100 st in
   100 <= low_threshold st /\
   veml_gain st <> VEML7700_GAIN_2 /\
   type (fst r) = GOOD /\ snd r = st /\
   ~ Spec.gain_up (veml_gain st) (veml_gain (snd r))).
Proof.
  cbv zeta. split.
  - repeat split; try reflexivity; try discriminate.
    intros [_ H]; discriminate H.
  - repeat split; try reflexivity; try discriminate.
    intros [_ H]; discriminate H.
Qed.

(** C3, amended.  On a count strictly below the low threshold,
    [readLuxAuto] reports TOO_LOW and raises the integration time one step
    if it is below 100 ms; otherwise raises the gain one step if the gain
    is below 2x; otherwise raises the integration time one step until
    800 ms; at 2x with 800 ms it leaves the object unchanged.  The new code
    is in the object and in the register field of the sensor, the other
    field is as before, the sensor is enabled again, and registers equal to
    the local copies stay so.  On a count at or below its low threshold,
    [optimizeParams] raises the gain one step if the gain is below 2x;
    otherwise raises the integration time one step until 800 ms; at 2x with
    800 ms it changes nothing and returns false. *)
Theorem increase_sensitivity_order :
  (forall (ac : bool) (count : Z) (st : VEML7700AutoGain),
      valid_gain (veml_gain st) -> valid_it (veml_it st) ->
      count < low_threshold st ->
      let r := readLuxAuto ac count st in
      let st' := snd r in
      type (fst r) = TOO_LOW /\
      (Spec.it_ms (veml_it st) < 100 ->
       Spec.it_up (veml_it st) (veml_it st') /\
       veml_gain st' = veml_gain st /\ it_written st st') /\
      (100 <= Spec.it_ms (veml_it st) -> veml_gain st <> VEML7700_GAIN_2 ->
       Spec.gain_up (veml_gain st) (veml_gain st') /\
       veml_it st' = veml_it st /\ gain_written st st') /\
      (100 <= Spec.it_ms (veml_it st) -> veml_gain st = VEML7700_GAIN_2 ->
       veml_it st <> VEML7700_IT_800MS ->
       Spec.it_up (veml_it st) (veml_it st') /\
       veml_gain st' = veml_gain st /\ it_written st st') /\
      (veml_gain st = VEML7700_GAIN_2 -> veml_it st = VEML7700_IT_800MS ->
       st' = st) /\
      (coherent st -> coherent st')) /\
  (forall (raw : Z) (st : Adafruit_VEML7700),
      valid_gain (getGain (hw st)) ->
      valid_it (getIntegrationTime (hw st)) ->
      raw <= lowThresh st ->
      let r := optimizeParams raw st in
      let g := getGain (hw st) in
      let i := getIntegrationTime (hw st) in
      let g' := getGain (hw (snd r)) in
      let i' := getIntegrationTime (hw (snd r)) in
      (g <> VEML7700_GAIN_2 ->
       Spec.gain_up g g' /\ i' = i /\ fst r = true) /\
      (g = VEML7700_GAIN_2 -> i <> VEML7700_IT_800MS ->
       Spec.it_up i i' /\ g' = g /\ fst r = true) /\
      (g = VEML7700_GAIN_2 -> i = VEML7700_IT_800MS ->
       snd r = st /\ fst r = false)).
Proof.
  split.
  - intros ac count st Hg Hi Hlow; cbv zeta.
    destruct (readLuxAuto_cases ac count st)
      as [(_ & Ht & Hst) | [(H1 & _) | (H1 & _)]]; try lia.
    rewrite Ht, Hst. split; [ reflexivity | ].
    apply increase_order; assumption.
  - intros raw st Hg Hi Hraw. apply optimizeParams_low; assumption.
Qed.

Lemma increase_sensitivity_order_witness :
  (let st := Scenario.auto_at VEML7700_GAIN_1_8 VEML7700_IT_100MS in
   let r := readLuxAuto true 50 st in
   type (fst r) = TOO_LOW /\
   Spec.gain_up (veml_gain st) (veml_gain (snd r)) /\
   veml_it (snd r) = veml_it st /\ gain_written st (snd r)) /\
  (let st := Scenario.driver_at VEML7700_GAIN_2 VEML7700_IT_400MS in
   Spec.it_up (getIntegrationTime (hw st))
     (getIntegrationTime (hw (snd (optimizeParams 10 st))))).
Proof.
  destruct increase_sensitivity_order as [Hauto Hopt].
  split; cbv zeta.
  - destruct (Hauto true 50
                (Scenario.auto_at VEML7700_GAIN_1_8 VEML7700_IT_100MS))
      as (Ht & _ & Hgain & _).
    + unfold valid_gain; simpl; tauto.
    + unfold valid_it; simpl; tauto.
    + simpl; lia.
    + split; [ exact Ht | ].
      apply Hgain; [ vm_compute; discriminate | discriminate ].
  - destruct (Hopt 10
                (Scenario.driver_at VEML7700_GAIN_2 VEML7700_IT_400MS))
      as (_ & Hit & _).
    + unfold valid_gain; simpl; tauto.
    + unfold valid_it; simpl; tauto.
    + simpl; lia.
    + apply Hit; [ reflexivity | discriminate ].
Defined.

(** C4.  With valid codes and [low <= high], on a count strictly above the
    high threshold [readLuxAuto] reports TOO_HIGH and lowers the
    integration time one step if it is above 100 ms; otherwise lowers the
    gain one step if the gain is above 1/8x; otherwise lowers the
    integration time one step down to 25 ms; at 1/8x with 25 ms it leaves
    the object unchanged.  The new code is in the object and in the register
    field of the sensor, the other field is as before, the sensor is
    enabled again, and registers equal to the local copies stay so.
    [optimizeParams] lowers the settings in the same order and changes
    nothing at 1/8x with 25 ms. *)
Theorem decrease_sensitivity_order :
  (forall (ac : bool) (count : Z) (st : VEML7700AutoGain),
      valid_gain (veml_gain st) -> valid_it (veml_it st) ->
      low_threshold st <= high_threshold st ->
      count > high_threshold st ->
      let r := readLuxAuto ac count st in
      let st' := snd r in
      type (fst r) = TOO_HIGH /\
      (100 < Spec.it_ms (veml_it st) ->
       Spec.it_down (veml_it st) (veml_it st') /\
       veml_gain st' = veml_gain st /\ it_written st st') /\
      (Spec.it_ms (veml_it st) <= 100 ->
       veml_gain st <> VEML7700_GAIN_1_8 ->
       Spec.gain_down (veml_gain st) (veml_gain st') /\
       veml_it st' = veml_it st /\ gain_written st st') /\
      (Spec.it_ms (veml_it st) <= 100 ->
       veml_gain st = VEML7700_GAIN_1_8 ->
       veml_it st <> VEML7700_IT_25MS ->
       Spec.it_down (veml_it st) (veml_it st') /\
       veml_gain st' = veml_gain st /\ it_written st st') /\
      (veml_gain st = VEML7700_GAIN_1_8 ->
       veml_it st = VEML7700_IT_25MS -> st' = st) /\
      (coherent st -> coherent st')) /\
  (forall (raw : Z) (st : Adafruit_VEML7700),
      valid_gain (getGain (hw st)) ->
      valid_it (getIntegrationTime (hw st)) ->
      lowThresh st <= hiThresh st -> raw > hiThresh st ->
      let r := optimizeParams raw st in
      let g := getGain (hw st) in
      let i := getIntegrationTime (hw st) in
      let g' := getGain (hw (snd r)) in
      let i' := getIntegrationTime (hw (snd r)) in
      (100 < Spec.it_ms i ->
       Spec.it_down i i' /\ g' = g /\ fst r = true) /\
      (Spec.it_ms i <= 100 -> g <> VEML7700_GAIN_1_8 ->
       Spec.gain_down g g' /\ i' = i /\ fst r = true) /\
      (Spec.it_ms i <= 100 -> g = VEML7700_GAIN_1_8 ->
       i <> VEML7700_IT_25MS ->
       Spec.it_down i i' /\ g' = g /\ fst r = true) /\
      (g = VEML7700_GAIN_1_8 -> i = VEML7700_IT_25MS ->
       snd r = st /\ fst r = false)).
Proof.
  split.
  - intros ac count st Hg Hi Hband Hhigh; cbv zeta.
    destruct (readLuxAuto_cases ac count st)
      as [(H1 & _) | [(_ & _ & Ht & Hst) | (H1 & _)]]; try lia.
    rewrite Ht, Hst. split; [ reflexivity | ].
    apply decrease_order; assumption.
  - intros raw st Hg Hi Hband Hraw.
    apply optimizeParams_high; assumption.
Qed.

Lemma decrease_sensitivity_order_witness :
  (let st := Scenario.auto_at VEML7700_GAIN_1 VEML7700_IT_100MS in
   let r := readLuxAuto true 20000 st in
   type (fst r) = TOO_HIGH /\
   Spec.gain_down (veml_gain st) (veml_gain (snd r)) /\
   veml_it (snd r) = veml_it st /\ gain_written st (snd r)) /\
  (let st := Scenario.driver_at VEML7700_GAIN_1_8 VEML7700_IT_50MS in
   Spec.it_down (getIntegrationTime (hw st))
     (getIntegrationTime (hw (snd (optimizeParams 40000 st))))).
Proof.
  destruct decrease_sensitivity_order as [Hauto Hopt].
  split; cbv zeta.
  - destruct (Hauto true 20000
                (Scenario.auto_at VEML7700_GAIN_1 VEML7700_IT_100MS))
      as (Ht & _ & Hgain & _).
    + unfold valid_gain; simpl; tauto.
    + unfold valid_it; simpl; tauto.
    + simpl; lia.
    + simpl; lia.
    + split; [ exact Ht | ].
      apply Hgain; [ vm_compute; discriminate | discriminate ].
  - destruct (Hopt 40000
                (Scenario.driver_at VEML7700_GAIN_1_8 VEML7700_IT_50MS))
      as (_ & _ & Hit & _).
    + unfold valid_gain; simpl; tauto.
    + unfold valid_it; simpl; tauto.
    + simpl; lia.
    + simpl; lia.
    + apply Hit; [ vm_compute; discriminate | reflexivity | discriminate ].
Defined.

End Ordering.

Section Setters.
Import Device Step AutoGain.

(** A code that fits its field is stored as it is. *)
Lemma field_small (bits data : Z) :
  0 <= bits -> 0 <= data < 2 ^ bits -> field bits data = data.
Proof.
  intros Hb Hd; unfold field.
  replace (Z.shiftl 1 bits - 1) with (Z.ones bits)
    by (rewrite Z.ones_equiv, Z.shiftl_1_l; lia).
  rewrite Z.land_ones by assumption.
  apply Z.mod_small; assumption.
Qed.

Lemma increase_bus (st : VEML7700AutoGain) :
  increase st = st \/
  exists e,
    bus (dev (increase st))
    = bus (dev st) ++ [WriteShutdown 1; e; WriteShutdown 0] /\
    (e = WriteGain (veml_gain (increase st)) \/
     e = WriteIntegrationTime (veml_it (increase st))).
Proof.
  unfold increase.
  destruct (getIntegrationMs st <? 100);
    [ | destruct (negb (veml_gain st =? VEML7700_GAIN_MAX));
        [ | destruct (negb (veml_it st =? VEML7700_IT_MAX)) ] ];
    try (left; reflexivity); right; eexists;
    (split; [ cbn; rewrite <- !app_assoc; reflexivity | cbn; auto ]).
Qed.

Lemma decrease_bus (st : VEML7700AutoGain) :
  decrease st = st \/
  exists e,
    bus (dev (decrease st))
    = bus (dev st) ++ [WriteShutdown 1; e; WriteShutdown 0] /\
    (e = WriteGain (veml_gain (decrease st)) \/
     e = WriteIntegrationTime (veml_it (decrease st))).
Proof.
  unfold decrease.
  destruct (getIntegrationMs st >? 100);
    [ | destruct (negb (veml_gain st =? VEML7700_GAIN_MIN));
        [ | destruct (negb (veml_it st =? VEML7700_IT_MIN)) ] ];
    try (left; reflexivity); right; eexists;
    (split; [ cbn; rewrite <- !app_assoc; reflexivity | cbn; auto ]).
Qed.

Lemma increase_coherent (st : VEML7700AutoGain) :
  valid_gain (veml_gain st) -> valid_it (veml_it st) -> coherent st ->
  let st' := increase st in
  valid_gain (veml_gain st') /\ valid_it (veml_it st') /\ coherent st'.
Proof.
  intros Hg Hi [Cg Ci]; cbv zeta.
  destruct st as [[sd ri rg log] i g lo hi];
    unfold coherent, getGain, getIntegrationTime in *; simpl in *.
  subst rg ri.
  split_codes Hg; split_codes Hi; vm_compute; tauto.
Qed.

Lemma decrease_coherent (st : VEML7700AutoGain) :
  valid_gain (veml_gain st) -> valid_it (veml_it st) -> coherent st ->
  let st' := decrease st in
  valid_gain (veml_gain st') /\ valid_it (veml_it st') /\ coherent st'.
Proof.
  intros Hg Hi [Cg Ci]; cbv zeta.
  destruct st as [[sd ri rg log] i g lo hi];
    unfold coherent, getGain, getIntegrationTime in *; simpl in *.
  subst rg ri.
  split_codes Hg; split_codes Hi; vm_compute; tauto.
Qed.

(** C8, counterexample.  On an enabled sensor, [setGain] and
    [setIntegrationTime] put one field write on the bus and nothing else:
    the shutdown bit is never written and the sensor stays enabled. *)
Lemma setters_do_not_cycle_the_sensor :
  let st := AutoGain.begin Device.power_up in
  let st1 := AutoGain.setGain VEML7700_GAIN_1_8 st in
  let st2 := AutoGain.setIntegrationTime VEML7700_IT_25MS st1 in
  enabled (dev st) = true /\
  bus (dev st1) = bus (dev st) ++ [WriteGain VEML7700_GAIN_1_8] /\
  bus (dev st2) = bus (dev st1) ++ [WriteIntegrationTime VEML7700_IT_25MS]
  /\ enabled (dev st1) = true /\ enabled (dev st2) = true /\
  bus (Device.setGain VEML7700_GAIN_1_8 (dev st))
  = bus (dev st) ++ [WriteGain VEML7700_GAIN_1_8].
Proof. cbv zeta. repeat split; reflexivity. Qed.

(** C8, amended.  [setGain] and [setIntegrationTime] write the new register
    field and nothing else; the [VEML7700AutoGain] overloads store the code
    in the local copy in the same call, so that for a code that fits the
    field the local copy and the register agree afterwards.  The callers
    bracket the write: [readLuxAuto] either changes nothing or disables,
    calls one setter and re-enables, and on valid codes keeps the local
    copies equal to the registers; [optimizeParams] either changes nothing
    or disables, writes both fields and restores the enabled bit. *)
Theorem setters_write_one_field :
  (forall g d,
      bus (Device.setGain g d) = bus d ++ [WriteGain g] /\
      ALS_Shutdown (Device.setGain g d) = ALS_Shutdown d /\
      getIntegrationTime (Device.setGain g d) = getIntegrationTime d) /\
  (forall i d,
      bus (Device.setIntegrationTime i d)
      = bus d ++ [WriteIntegrationTime i] /\
      ALS_Shutdown (Device.setIntegrationTime i d) = ALS_Shutdown d /\
      getGain (Device.setIntegrationTime i d) = getGain d) /\
  (forall g st,
      dev (AutoGain.setGain g st) = Device.setGain g (dev st) /\
      veml_gain (AutoGain.setGain g st) = g /\
      veml_it (AutoGain.setGain g st) = veml_it st /\
      (0 <= g < 4 ->
       getGain (dev (AutoGain.setGain g st))
       = veml_gain (AutoGain.setGain g st))) /\
  (forall i st,
      dev (AutoGain.setIntegrationTime i st)
      = Device.setIntegrationTime i (dev st) /\
      veml_it (AutoGain.setIntegrationTime i st) = i /\
      veml_gain (AutoGain.setIntegrationTime i st) = veml_gain st /\
      (0 <= i < 16 ->
       getIntegrationTime (dev (AutoGain.setIntegrationTime i st))
       = veml_it (AutoGain.setIntegrationTime i st))) /\
  (forall ac count st,
      let st' := snd (readLuxAuto ac count st) in
      (st' = st \/
       exists e,
         bus (dev st')
         = bus (dev st) ++ [WriteShutdown 1; e; WriteShutdown 0] /\
         (e = WriteGain (veml_gain st') \/
          e = WriteIntegrationTime (veml_it st'))) /\
      (valid_gain (veml_gain st) -> valid_it (veml_it st) ->
       coherent st ->
       valid_gain (veml_gain st') /\ valid_it (veml_it st') /\
       coherent st')) /\
  (forall raw st,
      let r := Optimize.optimizeParams raw st in
      (fst r = false /\ snd r = st) \/
      (fst r = true /\
       enabled (Optimize.hw (snd r)) = enabled (Optimize.hw st) /\
       exists i' g',
         getIntegrationTime (Optimize.hw (snd r)) = field 4 i' /\
         getGain (Optimize.hw (snd r)) = field 2 g' /\
         bus (Optimize.hw (snd r))
         = bus (Optimize.hw st)
           ++ [WriteShutdown 1; WriteIntegrationTime i'; WriteGain g';
               WriteShutdown (if enabled (Optimize.hw st) then 0 else 1)])).
Proof.
  split; [ | split; [ | split; [ | split; [ | split ] ] ] ].
  - intros g d; repeat split.
  - intros i d; repeat split.
  - intros g st; repeat split.
    intros Hg; cbn. apply field_small; [ lia | simpl; lia ].
  - intros i st; repeat split.
    intros Hi; cbn. apply field_small; [ lia | simpl; lia ].
  - intros ac count st; cbv zeta.
    destruct (readLuxAuto_cases ac count st)
      as [(_ & _ & Hst) | [(_ & _ & _ & Hst) | (_ & _ & Hst)]];
      rewrite Hst; split.
    + apply increase_bus.
    + apply increase_coherent.
    + apply decrease_bus.
    + apply decrease_coherent.
    + left; reflexivity.
    + tauto.
  - intros raw st; cbv zeta. unfold Optimize.optimizeParams.
    destruct (Optimize.choose _ _ _ _ _) as [[gI iI] changed].
    destruct changed; [ right | left; split; reflexivity ].
    split; [ reflexivity | ].
    destruct st as [[sd i g log] lo hi]; cbn.
    split.
    + unfold enabled; cbn. destruct (sd =? 0); reflexivity.
    + do 2 eexists. split; [ reflexivity | split; [ reflexivity | ] ].
      rewrite <- !app_assoc. cbn. unfold enabled; cbn.
      destruct (sd =? 0); reflexivity.
Qed.

Lemma setters_write_one_field_witness :
  let st := AutoGain.setGain VEML7700_GAIN_1_4
              (AutoGain.begin Device.power_up) in
  getGain (dev st) = veml_gain st.
Proof.
  destruct setters_write_one_field as (_ & _ & Hset & _).
  destruct (Hset VEML7700_GAIN_1_4 (AutoGain.begin Device.power_up))
    as (_ & _ & _ & H).
  apply H. unfold VEML7700_GAIN_1_4. lia.
Defined.

End Setters.

(** Write the constants given in scientific notation as plain fractions. *)
Ltac q_consts :=
  repeat match goal with
         | |- context [Qdiv (Qmake ?n ?d) (Qmake (Z.pow_pos ?b ?e) 1)] =>
             let v := eval vm_compute in
                        (Qdiv (Qmake n d) (Qmake (Z.pow_pos b e) 1)) in
             change (Qdiv (Qmake n d) (Qmake (Z.pow_pos b e) 1)) with v
         | H : context [Qdiv (Qmake ?n ?d) (Qmake (Z.pow_pos ?b ?e) 1)]
           |- _ =>
             let v := eval vm_compute in
                        (Qdiv (Qmake n d) (Qmake (Z.pow_pos b e) 1)) in
             change (Qdiv (Qmake n d) (Qmake (Z.pow_pos b e) 1)) with v in H
         end.

Section FullConvergence.
Import Device AutoSensor.

(** The quartic of "Return 3" is not negative up to 10000 counts: each
    bracket of the nested form is bounded from below in turn. *)
Lemma quartic_nonneg (a : Q) :
  (0 <= a)%Q -> (a <= 10000)%Q ->
  (0 <= a * (1.0023
             + a * (0.000081488
                    + a * (-9.3924e-9 + 6.0135e-13 * a))))%Q.
Proof.
  intros H0 H1.
  assert (M1 : (0 <= a * ((-9.3924e-9 + 6.0135e-13 * a) + 9.3924e-9))%Q)
    by (apply Qmult_le_0_compat; [ exact H0 | q_consts; lra ]).
  assert (M2 : (0 <= a * ((0.000081488
                           + a * (-9.3924e-9 + 6.0135e-13 * a))
                          + 0.000012436))%Q)
    by (apply Qmult_le_0_compat; [ exact H0 | q_consts; lra ]).
  apply Qmult_le_0_compat; [ exact H0 | q_consts; lra ].
Qed.

Lemma corrected_nonneg (als : Z) :
  0 <= als < 10000 -> (0 <= corrected als)%Q.
Proof.
  intros [Hlo Hhi]; unfold corrected; cbv zeta.
  apply quartic_nonneg.
  - change 0%Q with (inject_Z 0); rewrite <- Zle_Qle; exact Hlo.
  - change 10000%Q with (inject_Z 10000); rewrite <- Zle_Qle; lia.
Qed.

Lemma scaled_nonneg (als : Z) (IT G : Z) :
  0 <= als -> (0 <= inject_Z als * ChartResolution IT G)%Q.
Proof.
  intros Hlo. apply Qmult_le_0_compat.
  - change 0%Q with (inject_Z 0); rewrite <- Zle_Qle; exact Hlo.
  - unfold ChartResolution.
    repeat match goal with
           | |- context [if ?b then _ else _] => destruct b
           end; vm_compute; discriminate.
Qed.

(** C9, counterexample.  When every reading stays at 50 counts the run
    ends at the exposure boundary, gain 2x with 800 ms, after seven
    iterations, and returns the lux value 0.18, which is not negative. *)
Lemma most_sensitive_boundary_returns_lux :
  exists lux d',
    luxAutoSensor 7 (fun _ => 50) power_up
    = Some (Returned lux 7%nat 3 4 d') /\
    getGain d' = VEML7700_GAIN_2 /\
    getIntegrationTime d' = VEML7700_IT_800MS /\
    (lux == 0.18)%Q /\ ~ (lux < 0)%Q.
Proof.
  do 2 eexists.
  split; [ vm_compute; reflexivity | ].
  split; [ reflexivity | split; [ reflexivity | ] ].
  split; [ reflexivity | ].
  intros H; vm_compute in H; discriminate H.
Qed.

(** C9, amended.  On every sequence of 16-bit readings and from every
    device state, [luxAutoSensor] returns after at most seven iterations
    of its loops.  When the first reading is 100 or less, it returns the lux
    conversion of its last reading at the gain and integration time it left
    in the registers (count times gain coefficient times integration
    coefficient times 0.0576, rounding apart), and that last reading is
    above 100 or the registers are at gain 2x with 800 ms: reaching that
    boundary gives the lux of the last count, count times 0.0036, not an
    error value.  It returns -2 when the first reading is above 100 and the
    readings at 50 ms and at 25 ms are both 10000 or more (light beyond the
    range at the least sensitive settings), after three iterations, and it
    returns a negative value in no other case. *)
Theorem luxAutoSensor_terminates
    (als_at : nat -> Z) (d : device) (n : nat) :
  (forall k, 0 <= als_at k <= 65535) ->
  exists lux reads it gain d',
    luxAutoSensor (7 + n) als_at d = Some (Returned lux reads it gain d') /\
    (1 <= reads <= 7)%nat /\
    (out_of_range als_at -> (lux == -2)%Q /\ reads = 3%nat) /\
    (~ out_of_range als_at -> (0 <= lux)%Q) /\
    (als_at 0%nat <= 100 ->
     (lux == Spec.toLux (als_at (pred reads)) (getGain d')
               (getIntegrationTime d'))%Q /\
     (100 < als_at (pred reads) \/
      getGain d' = VEML7700_GAIN_2 /\
      getIntegrationTime d' = VEML7700_IT_800MS)) /\
    ((forall k, (k < 7)%nat -> als_at k <= 100) ->
     getGain d' = VEML7700_GAIN_2 /\
     getIntegrationTime d' = VEML7700_IT_800MS /\
     reads = 7%nat /\ (lux == inject_Z (als_at 6%nat) * 0.0036)%Q).
Proof.
  intros Hrange. unfold luxAutoSensor, out_of_range.
  simpl.
  repeat match goal with
         | |- context [als_at ?k <=? 100] =>
             destruct (Z.leb_spec (als_at k) 100)
         | |- context [als_at ?k <? 10000] =>
             destruct (Z.ltb_spec (als_at k) 10000)
         end;
    do 5 eexists;
    (split; [ reflexivity | ]); (split; [ lia | ]).
  all: split; [ intros (A & B & C); try lia; split; reflexivity | ].
  all: split;
    [ intros N;
      first [ apply scaled_nonneg; apply Hrange
            | apply corrected_nonneg; split; [ apply Hrange | assumption ]
            | exfalso; apply N; repeat split; lia ] | ].
  all: split;
    [ intros Hdark;
      first
        [ lia
        | split;
          [ unfold Spec.toLux, Spec.normalize, ChartResolution; simpl; cbn;
            field
          | cbn [pred];
            first [ left; assumption | right; split; reflexivity ] ] ] | ].
  all: intros Hall;
    pose proof (Hall 0%nat ltac:(lia)); pose proof (Hall 1%nat ltac:(lia));
    pose proof (Hall 2%nat ltac:(lia)); pose proof (Hall 3%nat ltac:(lia));
    pose proof (Hall 4%nat ltac:(lia)); pose proof (Hall 5%nat ltac:(lia));
    pose proof (Hall 6%nat ltac:(lia)); try lia.
  repeat split; reflexivity.
Qed.

Lemma luxAutoSensor_terminates_witness :
  exists lux reads it gain d',
    luxAutoSensor 7 (fun k => if (k =? 0)%nat then 5000 else 20000)
      power_up
    = Some (Returned lux reads it gain d') /\
    (lux == -2)%Q /\ reads = 3%nat.
Proof.
  destruct (luxAutoSensor_terminates
              (fun k => if (k =? 0)%nat then 5000 else 20000)
              power_up 0)
    as (lux & reads & it & gain & d' & Hrun & _ & Hout & _).
  - intros k; destruct (k =? 0)%nat; lia.
  - exists lux, reads, it, gain, d'.
    split; [ exact Hrun | ].
    apply Hout. unfold out_of_range; simpl. lia.
Defined.

End FullConvergence.

(** * Further properties of the driver *)

(** The contents a field of two bits and a field of four bits can have. *)
Ltac two_bits Hg :=
  match type of Hg with
  | 0 <= ?g < 4 =>
      let Hg' := fresh in
      assert (g = 0 \/ g = 1 \/ g = 2 \/ g = 3) as Hg' by lia;
      clear Hg; destruct Hg' as [Hg | [Hg | [Hg | Hg]]]; subst g
  end.

Ltac four_bits Hi :=
  match type of Hi with
  | 0 <= ?i < 16 =>
      let Hi' := fresh in
      assert (i = 0 \/ i = 1 \/ i = 2 \/ i = 3 \/ i = 4 \/ i = 5 \/ i = 6
              \/ i = 7 \/ i = 8 \/ i = 9 \/ i = 10 \/ i = 11 \/ i = 12
              \/ i = 13 \/ i = 14 \/ i = 15) as Hi' by lia;
      clear Hi;
      repeat (destruct Hi' as [Hi' | Hi']; [ subst i | ]); [ .. | subst i ]
  end.

Ltac field_values Hg Hi := two_bits Hg; four_bits Hi.

Lemma Qsquare_nonneg (t : Q) : (0 <= t * t)%Q.
Proof.
  destruct (Qlt_le_dec t 0) as [Hneg | Hpos].
  - setoid_replace (t * t)%Q with ((- t) * (- t))%Q by ring.
    apply Qmult_le_0_compat; lra.
  - apply Qmult_le_0_compat; assumption.
Qed.


Section Monotone.
Import Device Calibration.

(** The divided difference of the quartic is positive on non-negative
    arguments. *)
Lemma correction_slope_nonneg (x y : Q) :
  (0 <= x)%Q -> (0 <= y)%Q ->
  (0 <= 6.0135e-13 * ((x + y) * (x * x + y * y))
        - 9.3924e-9 * (x * x + x * y + y * y)
        + 8.1488e-5 * (x + y) + 1.0023)%Q.
Proof.
  intros Hx Hy. q_consts.
  assert (Hs : (0 <= x + y)%Q) by lra.
  assert (Hxy : (0 <= x * y)%Q) by (apply Qmult_le_0_compat; assumption).
  assert (Hd : (0 <= (x + y) * ((x - y) * (x - y)))%Q)
    by (apply Qmult_le_0_compat; [ exact Hs | apply Qsquare_nonneg ]).
  assert (Hq : (0 <= (x + y) * ((x + y - 15619) * (x + y - 15619)))%Q)
    by (apply Qmult_le_0_compat; [ exact Hs | apply Qsquare_nonneg ]).
  assert (Hxx : (0 <= x * x)%Q) by apply Qsquare_nonneg.
  assert (Hyy : (0 <= y * y)%Q) by apply Qsquare_nonneg.
  lra.
Qed.

Lemma correction_monotone (x y : Q) :
  (0 <= x)%Q -> (x <= y)%Q -> (correction x <= correction y)%Q.
Proof.
  intros Hx Hxy.
  assert (Hy : (0 <= y)%Q) by lra.
  pose proof (correction_slope_nonneg x y Hx Hy) as Hq.
  assert (Hp : (0 <= (y - x)
                     * (6.0135e-13 * ((x + y) * (x * x + y * y))
                        - 9.3924e-9 * (x * x + x * y + y * y)
                        + 8.1488e-5 * (x + y) + 1.0023))%Q)
    by (apply Qmult_le_0_compat; [ lra | exact Hq ]).
  unfold correction. q_consts. lra.
Qed.

Lemma convertToLux_ret_linear (g i : Z) :
  0 <= g < 4 -> 0 <= i < 16 ->
  exists k : Q,
    (0 < k)%Q /\ forall raw, (convertToLux_ret g i raw == inject_Z raw * k)%Q.
Proof.
  intros Hg Hi.
  exists (at_index gainCoeff g 0 * at_index integrationTimeCoeff i 0
          * LUX_PER_COUNT)%Q.
  split.
  - field_values Hg Hi; vm_compute; reflexivity.
  - intros raw; unfold convertToLux_ret; ring.
Qed.

(** X1.  Whatever the two register fields hold, [convertToLux] is not
    negative and does not decrease when the raw count grows, also through
    the correction at gain 1/8x with 25 ms. *)
Theorem convertToLux_monotone (d : device) (raw raw' : Z) :
  0 <= getGain d < 4 -> 0 <= getIntegrationTime d < 16 ->
  0 <= raw <= raw' ->
  (0 <= convertToLux d raw)%Q /\
  (convertToLux d raw <= convertToLux d raw')%Q.
Proof.
  intros Hg Hi [H0 Hle].
  destruct (convertToLux_ret_linear _ _ Hg Hi) as (k & Hk & Hlin).
  assert (Q0 : (0 <= inject_Z raw)%Q)
    by (change 0%Q with (inject_Z 0); rewrite <- Zle_Qle; exact H0).
  assert (Qle : (inject_Z raw <= inject_Z raw')%Q)
    by (rewrite <- Zle_Qle; exact Hle).
  assert (R0 : (0 <= convertToLux_ret (getGain d) (getIntegrationTime d)
                      raw)%Q)
    by (rewrite Hlin; apply Qmult_le_0_compat; lra).
  assert (Rle : (convertToLux_ret (getGain d) (getIntegrationTime d) raw
                 <= convertToLux_ret (getGain d) (getIntegrationTime d)
                      raw')%Q)
    by (rewrite !Hlin; apply Qmult_le_compat_r; lra).
  unfold convertToLux.
  destruct ((getGain d =? VEML7700_GAIN_1_8)
            && (getIntegrationTime d =? VEML7700_IT_25MS)).
  - split.
    + setoid_replace 0%Q with (correction 0) by (vm_compute; reflexivity).
      apply correction_monotone; [ lra | exact R0 ].
    + apply correction_monotone; assumption.
  - split; assumption.
Qed.

Lemma convertToLux_monotone_witness :
  (convertToLux
     (Scenario.driver_at VEML7700_GAIN_1_8 VEML7700_IT_25MS).(Optimize.hw)
     20000
   <= convertToLux
        (Scenario.driver_at VEML7700_GAIN_1_8 VEML7700_IT_25MS).(Optimize.hw)
        65535)%Q.
Proof.
  apply (convertToLux_monotone
           (Scenario.driver_at VEML7700_GAIN_1_8
              VEML7700_IT_25MS).(Optimize.hw) 20000 65535).
  - simpl; lia.
  - simpl; lia.
  - lia.
Defined.

(** X2.  For every content of the two register fields other than gain 1/8x
    with 25 ms, reserved integration codes included, [readLux] and
    [readLuxNormalized], which scale through the switches of
    [normalize_resolution], return the same lux as [convertToLux], which
    scales through its tables.  The pair with the correction is left out:
    there the source rounds the result of [readLux] before the quartic and
    [convertToLux] does not. *)
Theorem readLux_is_convertToLux_uncorrected (d : device) (raw : Z) :
  0 <= getGain d < 4 -> 0 <= getIntegrationTime d < 16 ->
  Spec.corrected_pair (getGain d) (getIntegrationTime d) = false ->
  (readLux d raw == convertToLux d raw)%Q /\
  (readLuxNormalized d raw == convertToLux d raw)%Q.
Proof.
  intros Hg Hi. destruct d as [sd i g log].
  unfold getGain, getIntegrationTime in *; simpl in Hg, Hi.
  unfold readLuxNormalized, readLux, convertToLux, convertToLux_ret,
    normalize_resolution, Spec.corrected_pair, getGain, getIntegrationTime,
    at_index, LUX_PER_COUNT.
  field_values Hg Hi; simpl; cbn; intros E;
    try discriminate; split; field.
Qed.

Lemma readLux_is_convertToLux_uncorrected_witness :
  (readLuxNormalized
     (Scenario.driver_at VEML7700_GAIN_1_8 VEML7700_IT_50MS).(Optimize.hw)
     1000
   == convertToLux
        (Scenario.driver_at VEML7700_GAIN_1_8 VEML7700_IT_50MS).(Optimize.hw)
        1000)%Q.
Proof.
  apply (readLux_is_convertToLux_uncorrected
           (Scenario.driver_at VEML7700_GAIN_1_8
              VEML7700_IT_50MS).(Optimize.hw) 1000).
  - simpl; lia.
  - simpl; lia.
  - reflexivity.
Defined.

End Monotone.

Section WhiteChannel.
Import Device Calibration White.

Lemma white_correction_monotone (x y : Q) :
  (0 <= x)%Q -> (x <= y)%Q -> (white_correction x <= white_correction y)%Q.
Proof.
  intros Hx Hxy.
  assert (Hy : (0 <= y)%Q) by lra.
  assert (Hxx : (0 <= x * x)%Q) by apply Qsquare_nonneg.
  assert (Hyy : (0 <= y * y)%Q) by apply Qsquare_nonneg.
  assert (Hm : (0 <= x * y)%Q) by (apply Qmult_le_0_compat; assumption).
  assert (Hc : (0 <= (x + y) * (x * x + y * y))%Q)
    by (apply Qmult_le_0_compat; lra).
  assert (Hp : (0 <= (y - x)
                     * (2e-15 * ((x + y) * (x * x + y * y))
                        + 4e-12 * (x * x + x * y + y * y)
                        + 9e-6 * (x + y) + 1.0179))%Q).
  { apply Qmult_le_0_compat; [ lra | ]. q_consts. lra. }
  unfold white_correction. q_consts. lra.
Qed.

Lemma readWhite_nonneg (d : device) (w : Z) :
  0 <= getGain d < 4 -> 0 <= getIntegrationTime d < 16 -> 0 <= w ->
  (0 <= readWhite d w)%Q.
Proof.
  intros Hg Hi Hw.
  assert (Q0 : (0 <= inject_Z w)%Q)
    by (change 0%Q with (inject_Z 0); rewrite <- Zle_Qle; exact Hw).
  destruct d as [sd i g log].
  unfold getGain, getIntegrationTime in *; simpl in Hg, Hi.
  unfold readWhite, normalize_resolution, getGain, getIntegrationTime.
  field_values Hg Hi; simpl; cbn; unfold Qdiv;
    repeat apply Qmult_le_0_compat; try exact Q0; vm_compute; discriminate.
Qed.

(** X3.  [readWhiteNormalized] returns a negative value exactly at gain
    1/8x with 25 ms on a white count of 5 or less: the constant -11.052 of
    the correction outweighs the rest there. *)
Theorem readWhiteNormalized_sign (d : device) (w : Z) :
  0 <= getGain d < 4 -> 0 <= getIntegrationTime d < 16 -> 0 <= w ->
  ((readWhiteNormalized d w < 0)%Q <->
   getGain d = VEML7700_GAIN_1_8 /\
   getIntegrationTime d = VEML7700_IT_25MS /\ w <= 5).
Proof.
  intros Hg Hi Hw.
  pose proof (readWhite_nonneg d w Hg Hi Hw) as Hnn.
  unfold readWhiteNormalized.
  destruct (Z.eqb_spec (getGain d) VEML7700_GAIN_1_8) as [Eg | Ng];
    [ destruct (Z.eqb_spec (getIntegrationTime d) VEML7700_IT_25MS)
        as [Ei | Ni] | ]; cbn [andb].
  - assert (E : (readWhite d w == inject_Z w * 1.8432)%Q).
    { unfold readWhite, normalize_resolution. rewrite Eg, Ei. cbn. field. }
    destruct (Z.le_gt_cases w 5) as [Hsmall | Hbig].
    + split; [ tauto | intros _ ].
      assert (Hb : (readWhite d w <= 9.216)%Q).
      { rewrite E. assert ((inject_Z w <= 5)%Q)
          by (change 5%Q with (inject_Z 5); rewrite <- Zle_Qle; lia).
        lra. }
      apply Qle_lt_trans with (white_correction 9.216).
      * apply white_correction_monotone; assumption.
      * vm_compute; reflexivity.
    + split; [ intros Hneg; exfalso | intros (_ & _ & H); lia ].
      assert (Hb : (11.0592 <= readWhite d w)%Q).
      { rewrite E. assert ((6 <= inject_Z w)%Q)
          by (change 6%Q with (inject_Z 6); rewrite <- Zle_Qle; lia).
        lra. }
      assert (Hm : (white_correction 11.0592
                    <= white_correction (readWhite d w))%Q)
        by (apply white_correction_monotone; [ lra | exact Hb ]).
      assert (Hv : (0 < white_correction 11.0592)%Q)
        by (vm_compute; reflexivity).
      lra.
  - split; [ intros Hneg; lra | intros (_ & E & _); contradiction ].
  - split; [ intros Hneg; lra | intros (E & _); contradiction ].
Qed.

Lemma readWhiteNormalized_sign_witness :
  (readWhiteNormalized
     (Scenario.driver_at VEML7700_GAIN_1_8 VEML7700_IT_25MS).(Optimize.hw) 3
   < 0)%Q.
Proof.
  apply (readWhiteNormalized_sign
           (Scenario.driver_at VEML7700_GAIN_1_8
              VEML7700_IT_25MS).(Optimize.hw) 3).
  - simpl; lia.
  - simpl; lia.
  - lia.
  - repeat split. lia.
Defined.

End WhiteChannel.

Section Getters.
Import Device Calibration Info.

(** X4.  The lux before correction, times [getGainValue], times
    [getIntegrationTimeFactor], is the raw count times 0.0576, whatever the
    two register fields hold; for the six integration-time codes the factor
    is the dwell period over 100 ms. *)
Theorem gain_and_integration_factors (d : device) (raw : Z) :
  0 <= getGain d < 4 -> 0 <= getIntegrationTime d < 16 ->
  (convertToLux_ret (getGain d) (getIntegrationTime d) raw
   * getGainValue d * getIntegrationTimeFactor d
   == inject_Z raw * 0.0576)%Q /\
  (valid_it (getIntegrationTime d) ->
   (getIntegrationTimeFactor d * 100
    == inject_Z (Spec.it_ms (getIntegrationTime d)))%Q).
Proof.
  intros Hg Hi. destruct d as [sd i g log].
  unfold getGain, getIntegrationTime in *; simpl in Hg, Hi.
  unfold getGainValue, getIntegrationTimeFactor, convertToLux_ret,
    getGain, getIntegrationTime, at_index, LUX_PER_COUNT, valid_it.
  field_values Hg Hi; simpl; cbn;
    (split; [ field | intros H ]);
    try reflexivity; exfalso; intuition discriminate.
Qed.

Lemma gain_and_integration_factors_witness :
  (getIntegrationTimeFactor
     (Scenario.driver_at VEML7700_GAIN_2 VEML7700_IT_400MS).(Optimize.hw)
   * 100 == 400)%Q.
Proof.
  apply (gain_and_integration_factors
           (Scenario.driver_at VEML7700_GAIN_2
              VEML7700_IT_400MS).(Optimize.hw) 0).
  - simpl; lia.
  - simpl; lia.
  - unfold valid_it; simpl; tauto.
Defined.

(** X5.  For every other value of the integration-time field, the reserved
    codes and, through the bounds check, anything from 16 up,
    [getIntegrationTimeFactor] is 1. *)
Theorem getIntegrationTimeFactor_of_other_codes (d : device) :
  0 <= ALS_Integration_Time d <= 255 ->
  ~ valid_it (ALS_Integration_Time d) ->
  (getIntegrationTimeFactor d == 1)%Q.
Proof.
  intros Hr Hn. unfold getIntegrationTimeFactor.
  change (Z.of_nat (length integrationTimeCoeff)) with 16.
  destruct (Z.lt_ge_cases (ALS_Integration_Time d) 16) as [Hlt | Hge].
  - assert (Hi : 0 <= ALS_Integration_Time d < 16) by lia.
    destruct d as [sd i g log]; simpl in *.
    unfold valid_it in Hn; simpl in Hn.
    four_bits Hi; try (exfalso; apply Hn; tauto); reflexivity.
  - assert (E : (ALS_Integration_Time d >=? 16) = true)
      by (rewrite Z.geb_leb; apply Z.leb_le; exact Hge).
    rewrite E. reflexivity.
Qed.

Lemma getIntegrationTimeFactor_of_other_codes_witness :
  (getIntegrationTimeFactor
     {| ALS_Shutdown := 0; ALS_Integration_Time := 200; ALS_Gain := 0;
        bus := [] |} == 1)%Q.
Proof.
  apply getIntegrationTimeFactor_of_other_codes.
  - simpl; lia.
  - unfold valid_it; simpl. intuition discriminate.
Defined.

(** X6.  [getRefreshTime] is 500 ms doubled once per power-save mode, plus
    the dwell period of the integration-time code, plus 3; a reserved
    integration-time code counts as 25 ms. *)
Theorem getRefreshTime_value (psm : Z) (d : device) :
  0 <= psm < 4 -> 0 <= getIntegrationTime d < 16 ->
  (valid_it (getIntegrationTime d) ->
   getRefreshTime psm d
   = 500 * 2 ^ psm + Spec.it_ms (getIntegrationTime d) + 3) /\
  (~ valid_it (getIntegrationTime d) ->
   getRefreshTime psm d = 500 * 2 ^ psm + 25 + 3).
Proof.
  intros Hp Hi. destruct d as [sd i g log].
  unfold getIntegrationTime in *; simpl in Hi.
  unfold getRefreshTime, getIntegrationTime, valid_it;
    cbn [ALS_Integration_Time].
  two_bits Hp; four_bits Hi; simpl;
    (split; intros H); try reflexivity;
    exfalso; try (apply H; tauto); intuition discriminate.
Qed.

Lemma getRefreshTime_value_witness :
  getRefreshTime 2
    (Scenario.driver_at VEML7700_GAIN_1 VEML7700_IT_800MS).(Optimize.hw)
  = 2803.
Proof.
  apply (getRefreshTime_value 2
           (Scenario.driver_at VEML7700_GAIN_1
              VEML7700_IT_800MS).(Optimize.hw)).
  - lia.
  - simpl; lia.
  - unfold valid_it; simpl; tauto.
Defined.

End Getters.

Section AutoGainRuns.
Import Device Step AutoGain Session.

Lemma read_too_dark (ac : bool) (count : Z) (st : VEML7700AutoGain) :
  count < low_threshold st -> step (Read ac count) st = increase st.
Proof.
  intros H; cbn [step].
  destruct (readLuxAuto_cases ac count st)
    as [(_ & _ & E) | [(H1 & _) | (H1 & _)]]; [ exact E | lia | lia ].
Qed.






Lemma rank_extremes (g i : Z) :
  valid_gain g -> valid_it i ->
  (exposure_rank g i = 8 ->
   g = VEML7700_GAIN_2 /\ i = VEML7700_IT_800MS) /\
  (exposure_rank g i = 0 ->
   g = VEML7700_GAIN_1_8 /\ i = VEML7700_IT_25MS) /\
  0 <= exposure_rank g i <= 8.
Proof.
  intros Hg Hi; split_codes Hg; split_codes Hi; vm_compute;
    repeat split; intros; congruence.
Qed.





(** A code that is not one of the six: [getIntegrationMs] is 0, so a dark
    reading takes the first branch, and [nextIt] answers 255. *)
Lemma increase_reserved_code (st : VEML7700AutoGain) :
  ~ valid_it (veml_it st) ->
  increase st
  = enable true (setIntegrationTime UINT8_ALL_ONES (enable false st)).
Proof.
  intros Hi. destruct st as [d i g lo hi]; simpl in Hi.
  pose proof Hi as Hi'.
  unfold increase.
  assert (Ems : getIntegrationMs (mkAutoGain d i g lo hi) = 0)
    by (unfold getIntegrationMs; cbn [veml_it]; not_a_code Hi; reflexivity).
  assert (Enext : nextIt i = UINT8_ALL_ONES)
    by (unfold nextIt; not_a_code Hi'; reflexivity).
  rewrite Ems. cbn [veml_it]. rewrite Enext. reflexivity.
Qed.

(** X9.  When the object holds an integration-time code that is not one of
    the six, reads below the low threshold, however many, leave [veml_it] at
    255 and the register at 15 and never touch the gain: the sensitivity is
    never raised. *)
Theorem reserved_integration_code_sticks
    (ac : bool) (c : Z) (counts : list Z) (st : VEML7700AutoGain) :
  ~ valid_it (veml_it st) ->
  Forall (fun c => c < low_threshold st) (c :: counts) ->
  let st' := run (map (Read ac) (c :: counts)) st in
  veml_it st' = 255 /\ getIntegrationTime (dev st') = 15 /\
  veml_gain st' = veml_gain st /\ getGain (dev st') = getGain (dev st).
Proof.
  intros Hi Hall; cbv zeta. revert c st Hi Hall.
  induction counts as [ | c' counts IH ]; intros c st Hi Hall;
    inversion Hall as [ | ? ? Hc Hrest ]; subst;
    cbn [map run]; rewrite (read_too_dark ac c st Hc);
    rewrite (increase_reserved_code st Hi).
  - repeat split.
  - set (st1 := enable true
                  (setIntegrationTime UINT8_ALL_ONES (enable false st))).
    assert (Hi1 : ~ valid_it (veml_it st1))
      by (unfold valid_it; simpl; intuition discriminate).
    assert (Hall1 : Forall (fun c => c < low_threshold st1) (c' :: counts))
      by exact Hrest.
    destruct (IH c' st1 Hi1 Hall1) as (E1 & E2 & E3 & E4).
    cbn [map run] in E1, E2, E3, E4.
    repeat split; assumption.
Qed.

Lemma reserved_integration_code_sticks_witness :
  let st := run (map (Read true) [10; 10; 10])
              (Scenario.auto_at VEML7700_GAIN_1_8 4) in
  veml_it st = 255 /\ getIntegrationTime (dev st) = 15 /\
  veml_gain st = VEML7700_GAIN_1_8 /\
  getGain (dev st) = VEML7700_GAIN_1_8.
Proof.
  apply (reserved_integration_code_sticks true 10 [10; 10]
           (Scenario.auto_at VEML7700_GAIN_1_8 4)).
  - unfold valid_it; simpl. intuition discriminate.
  - repeat constructor.
Defined.

Lemma step_keeps_invariant (c : call) (st : VEML7700AutoGain) :
  documented c ->
  valid_gain (veml_gain st) -> valid_it (veml_it st) -> coherent st ->
  valid_gain (veml_gain (step c st)) /\ valid_it (veml_it (step c st)) /\
  coherent (step c st).
Proof.
  intros Hc Hg Hi Hco. destruct c as [ac count | g | i | lo hi | en].
  - cbn [step].
    destruct (readLuxAuto_cases ac count st)
      as [(_ & _ & E) | [(_ & _ & _ & E) | (_ & _ & E)]]; rewrite E.
    + apply increase_coherent; assumption.
    + apply decrease_coherent; assumption.
    + auto.
  - cbn in Hc |- *. destruct Hco as [_ Ci].
    repeat split; try assumption.
    cbn. symmetry. apply field_small; [ lia | ].
    split_codes Hc; vm_compute; split; congruence.
  - cbn in Hc |- *. destruct Hco as [Cg _].
    repeat split; try assumption.
    cbn. symmetry. apply field_small; [ lia | ].
    split_codes Hc; vm_compute; split; congruence.
  - cbn. auto.
  - cbn. destruct Hco; repeat split; assumption.
Qed.

(** X10.  After [begin], whatever the device held before, any sequence of
    reads, threshold changes, enable calls and setter calls with documented
    codes leaves the object with valid gain and integration-time codes that
    equal the register fields. *)
Theorem session_keeps_codes_valid (d : device) (cs : list call) :
  Forall documented cs ->
  let st := run cs (AutoGain.begin d) in
  valid_gain (veml_gain st) /\ valid_it (veml_it st) /\ coherent st.
Proof.
  intros Hcs; cbv zeta.
  assert (H0 : valid_gain (veml_gain (AutoGain.begin d)) /\
               valid_it (veml_it (AutoGain.begin d)) /\
               coherent (AutoGain.begin d)).
  { unfold valid_gain, valid_it, coherent; cbn. tauto. }
  revert H0. generalize (AutoGain.begin d) as st.
  induction cs as [ | c cs IH ]; intros st (Hg & Hi & Hco).
  - cbn. auto.
  - inversion Hcs as [ | ? ? Hc Hrest ]; subst.
    cbn [run]. apply IH; [ exact Hrest | ].
    apply step_keeps_invariant; assumption.
Qed.

Lemma session_keeps_codes_valid_witness :
  let st := run [SetGain VEML7700_GAIN_1_8; Read true 5; Enable false;
                 SetAutoThreshold 200 5000; Read false 60000;
                 SetIntegrationTime VEML7700_IT_25MS; Read true 7]
              (AutoGain.begin power_up) in
  valid_gain (veml_gain st) /\ valid_it (veml_it st) /\ coherent st.
Proof.
  apply (session_keeps_codes_valid power_up
           [SetGain VEML7700_GAIN_1_8; Read true 5; Enable false;
            SetAutoThreshold 200 5000; Read false 60000;
            SetIntegrationTime VEML7700_IT_25MS; Read true 7]).
  repeat constructor; unfold valid_gain, valid_it; simpl; tauto.
Defined.

(** X11.  One step up in integration time with twice the count gives the
    same lux before correction, through [lazyNormalize] and through the
    tables of [convertToLux]. *)
Theorem lux_unchanged_by_longer_integration
    (st : VEML7700AutoGain) (count : Z) :
  valid_it (veml_it st) -> veml_it st <> VEML7700_IT_800MS ->
  (readLuxAuto_lux (setIntegrationTime (nextIt (veml_it st)) st)
     (2 * count)
   == readLuxAuto_lux st count)%Q /\
  (forall g,
      (Calibration.convertToLux_ret g (nextIt (veml_it st)) (2 * count)
       == Calibration.convertToLux_ret g (veml_it st) count)%Q).
Proof.
  intros Hi Hmax. destruct st as [d i g lo hi]; simpl in Hi, Hmax.
  unfold readLuxAuto_lux, lazyNormalize, Calibration.convertToLux_ret,
    Calibration.LUX_PER_COUNT, Calibration.at_index.
  cbn [setIntegrationTime veml_it veml_gain].
  rewrite inject_Z_mult.
  split_codes Hi; try (exfalso; apply Hmax; reflexivity);
    (split; [ | intros g' ]); simpl;
    repeat match goal with
           | |- context [if ?b then _ else _] => destruct b
           end; field.
Qed.

Lemma lux_unchanged_by_longer_integration_witness :
  (readLuxAuto_lux
     (setIntegrationTime VEML7700_IT_200MS
        (Scenario.auto_at VEML7700_GAIN_1_4 VEML7700_IT_100MS)) (2 * 700)
   == readLuxAuto_lux
        (Scenario.auto_at VEML7700_GAIN_1_4 VEML7700_IT_100MS) 700)%Q.
Proof.
  apply (lux_unchanged_by_longer_integration
           (Scenario.auto_at VEML7700_GAIN_1_4 VEML7700_IT_100MS) 700).
  - unfold valid_it; simpl; tauto.
  - discriminate.
Defined.

End AutoGainRuns.

Section OptimizeRuns.
Import Device Calibration Optimize Session.

Lemma choose_in_range (raw lo hi gI iI : Z) :
  0 <= gI <= 3 -> 0 <= iI <= 5 ->
  0 <= fst (fst (choose raw lo hi gI iI)) <= 3 /\
  0 <= snd (fst (choose raw lo hi gI iI)) <= 5.
Proof.
  intros Hg Hi. unfold choose.
  change gainValsMaxIndex with 3. change integrationValsMaxIndex with 5.
  destruct (raw <=? lo); [ | destruct (raw >? hi) ].
  - destruct (Z.ltb_spec gI 3); [ cbn; lia | ].
    destruct (Z.ltb_spec iI 5); cbn; lia.
  - rewrite !Z.gtb_ltb.
    destruct (Z.ltb_spec 2 iI); [ cbn; lia | ].
    destruct (Z.ltb_spec 0 gI); [ cbn; lia | ].
    destruct (Z.ltb_spec 0 iI); cbn; lia.
  - cbn; lia.
Qed.

Lemma index_tables_in_range (g i : Z) :
  0 <= g < 4 -> 0 <= i < 16 ->
  0 <= at_index gainIndex g 0 <= 3 /\
  0 <= at_index integrationTimeIndex i 0 <= 5.
Proof. intros Hg Hi; field_values Hg Hi; vm_compute; intuition congruence. Qed.

Lemma value_tables_valid (gI iI : Z) :
  0 <= gI <= 3 -> 0 <= iI <= 5 ->
  valid_gain (field 2 (at_index gainVals gI 0)) /\
  valid_it (field 4 (at_index integrationTimeVals iI 0)).
Proof.
  intros Hg Hi.
  assert (Hg' : gI = 0 \/ gI = 1 \/ gI = 2 \/ gI = 3) by lia.
  assert (Hi' : iI = 0 \/ iI = 1 \/ iI = 2 \/ iI = 3 \/ iI = 4 \/ iI = 5)
    by lia.
  unfold valid_gain, valid_it.
  destruct Hg' as [E | [E | [E | E]]]; subst gI;
    destruct Hi' as [E | [E | [E | [E | [E | E]]]]]; subst iI;
    vm_compute; tauto.
Qed.

(** X12.  Whatever the two register fields hold, a call of
    [optimizeParams] that returns true leaves valid gain and
    integration-time codes in the registers (a reserved integration code is
    replaced), a call that returns false leaves the object as it was, and
    the enabled bit and the thresholds are the same after the call. *)
Theorem optimizeParams_leaves_valid_codes
    (raw : Z) (st : Adafruit_VEML7700) :
  0 <= getGain (hw st) < 4 -> 0 <= getIntegrationTime (hw st) < 16 ->
  let r := optimizeParams raw st in
  (fst r = true ->
   valid_gain (getGain (hw (snd r))) /\
   valid_it (getIntegrationTime (hw (snd r)))) /\
  (fst r = false -> snd r = st) /\
  enabled (hw (snd r)) = enabled (hw st) /\
  lowThresh (snd r) = lowThresh st /\ hiThresh (snd r) = hiThresh st.
Proof.
  intros Hg Hi; cbv zeta.
  destruct (index_tables_in_range _ _ Hg Hi) as [HgI HiI].
  pose proof (choose_in_range raw (lowThresh st) (hiThresh st) _ _ HgI HiI)
    as [Hg' Hi'].
  unfold optimizeParams.
  destruct (choose _ _ _ _ _) as [[g' i'] changed]; cbn [fst snd] in Hg', Hi'.
  destruct changed; cbn [fst snd].
  - split; [ intros _ | split; [ discriminate | ] ].
    + cbn. apply value_tables_valid; assumption.
    + split; [ | split; reflexivity ].
      unfold enabled; cbn. destruct (ALS_Shutdown (hw st) =? 0); reflexivity.
  - split; [ discriminate | ]. repeat split.
Qed.

Lemma optimizeParams_leaves_valid_codes_witness :
  let st := Scenario.driver_at VEML7700_GAIN_1_8 5 in
  valid_gain (getGain (hw (snd (optimizeParams 10 st)))) /\
  valid_it (getIntegrationTime (hw (snd (optimizeParams 10 st)))).
Proof.
  apply (optimizeParams_leaves_valid_codes 10
           (Scenario.driver_at VEML7700_GAIN_1_8 5)).
  - simpl; lia.
  - simpl; lia.
  - reflexivity.
Defined.

(** X13.  On valid codes [optimizeParams] returns true exactly when the
    gain or the integration time in the registers changed, and it never
    changes both. *)
Theorem optimizeParams_true_iff_one_setting_changed
    (raw : Z) (st : Adafruit_VEML7700) :
  valid_gain (getGain (hw st)) -> valid_it (getIntegrationTime (hw st)) ->
  let r := optimizeParams raw st in
  let g := getGain (hw st) in
  let i := getIntegrationTime (hw st) in
  let g' := getGain (hw (snd r)) in
  let i' := getIntegrationTime (hw (snd r)) in
  (fst r = true <-> (g' <> g \/ i' <> i)) /\ (g' = g \/ i' = i).
Proof.
  intros Hg Hi; cbv zeta.
  unfold optimizeParams, choose.
  destruct (raw <=? lowThresh st); [ | destruct (raw >? hiThresh st) ];
    destruct st as [[sd i g log] lo hi];
    unfold getGain, getIntegrationTime in *; simpl in Hg, Hi;
    split_codes Hg; split_codes Hi; vm_compute;
    (split; [ split; intros H | ]);
    try reflexivity; try discriminate H;
    try (left; discriminate); try (right; discriminate);
    try (left; reflexivity); try (right; reflexivity);
    exfalso; destruct H as [H | H]; apply H; reflexivity.
Qed.

Lemma optimizeParams_true_iff_one_setting_changed_witness :
  let st := Scenario.driver_at VEML7700_GAIN_1 VEML7700_IT_200MS in
  getGain (hw (snd (optimizeParams 40000 st))) = getGain (hw st) \/
  getIntegrationTime (hw (snd (optimizeParams 40000 st)))
  = getIntegrationTime (hw st).
Proof.
  apply (optimizeParams_true_iff_one_setting_changed 40000
           (Scenario.driver_at VEML7700_GAIN_1 VEML7700_IT_200MS)).
  - unfold valid_gain; simpl; tauto.
  - unfold valid_it; simpl; tauto.
Defined.

Lemma optimizeParams_low_rank (raw : Z) (st : Adafruit_VEML7700) :
  valid_gain (getGain (hw st)) -> valid_it (getIntegrationTime (hw st)) ->
  raw <= lowThresh st ->
  let st' := snd (optimizeParams raw st) in
  valid_gain (getGain (hw st')) /\ valid_it (getIntegrationTime (hw st')) /\
  exposure_rank (getGain (hw st')) (getIntegrationTime (hw st'))
  = Z.min 8 (exposure_rank (getGain (hw st)) (getIntegrationTime (hw st))
             + 1) /\
  lowThresh st' = lowThresh st /\ hiThresh st' = hiThresh st.
Proof.
  intros Hg Hi Hraw; cbv zeta.
  assert (E : (raw <=? lowThresh st) = true) by (apply Z.leb_le; lia).
  unfold optimizeParams, choose; rewrite E; clear E Hraw.
  destruct st as [[sd i g log] lo hi];
    unfold getGain, getIntegrationTime in *; simpl in Hg, Hi.
  split_codes Hg; split_codes Hi; vm_compute; tauto.
Qed.

Lemma optimizeParams_high_rank (raw : Z) (st : Adafruit_VEML7700) :
  valid_gain (getGain (hw st)) -> valid_it (getIntegrationTime (hw st)) ->
  lowThresh st <= hiThresh st -> hiThresh st < raw ->
  let st' := snd (optimizeParams raw st) in
  valid_gain (getGain (hw st')) /\ valid_it (getIntegrationTime (hw st')) /\
  exposure_rank (getGain (hw st')) (getIntegrationTime (hw st'))
  = Z.max 0 (exposure_rank (getGain (hw st)) (getIntegrationTime (hw st))
             - 1) /\
  lowThresh st' = lowThresh st /\ hiThresh st' = hiThresh st.
Proof.
  intros Hg Hi Hband Hraw; cbv zeta.
  assert (E1 : (raw <=? lowThresh st) = false) by (apply Z.leb_gt; lia).
  assert (E2 : (raw >? hiThresh st) = true)
    by (rewrite Z.gtb_ltb; apply Z.ltb_lt; lia).
  unfold optimizeParams, choose; rewrite E1, E2; clear E1 E2 Hband Hraw.
  destruct st as [[sd i g log] lo hi];
    unfold getGain, getIntegrationTime in *; simpl in Hg, Hi.
  split_codes Hg; split_codes Hi; vm_compute; tauto.
Qed.

(** X14.  From valid codes, every call of [optimizeParams] with a count at
    or below the low threshold moves the exposure one rung up until the top;
    after eight of them the registers hold gain 2x with 800 ms and a further
    such call returns false and changes nothing. *)
Theorem low_counts_drive_optimizeParams_to_the_top
    (raws : list Z) (st : Adafruit_VEML7700) :
  valid_gain (getGain (hw st)) -> valid_it (getIntegrationTime (hw st)) ->
  Forall (fun raw => raw <= lowThresh st) raws ->
  let st' := optimize raws st in
  valid_gain (getGain (hw st')) /\ valid_it (getIntegrationTime (hw st')) /\
  exposure_rank (getGain (hw st')) (getIntegrationTime (hw st'))
  = Z.min 8 (exposure_rank (getGain (hw st)) (getIntegrationTime (hw st))
             + Z.of_nat (length raws)) /\
  ((8 <= length raws)%nat ->
   getGain (hw st') = VEML7700_GAIN_2 /\
   getIntegrationTime (hw st') = VEML7700_IT_800MS /\
   forall raw, raw <= lowThresh st -> optimizeParams raw st' = (false, st')).
Proof.
  intros Hg Hi Hall; cbv zeta.
  assert (Hmain :
    valid_gain (getGain (hw (optimize raws st))) /\
    valid_it (getIntegrationTime (hw (optimize raws st))) /\
    exposure_rank (getGain (hw (optimize raws st)))
      (getIntegrationTime (hw (optimize raws st)))
    = Z.min 8 (exposure_rank (getGain (hw st)) (getIntegrationTime (hw st))
               + Z.of_nat (length raws)) /\
    lowThresh (optimize raws st) = lowThresh st).
  { revert st Hg Hi Hall.
    induction raws as [ | raw raws IH ]; intros st Hg Hi Hall.
    - cbn. pose proof (rank_extremes _ _ Hg Hi) as (_ & _ & Hr).
      repeat split; try assumption. lia.
    - inversion Hall as [ | ? ? Hc Hrest ]; subst.
      cbn [optimize].
      destruct (optimizeParams_low_rank raw st Hg Hi Hc)
        as (Hg' & Hi' & Hr' & Elo & _).
      rewrite <- Elo in Hrest.
      destruct (IH _ Hg' Hi' Hrest) as (Hg'' & Hi'' & Hr'' & Elo'').
      repeat split; try assumption.
      + rewrite Hr'', Hr'. cbn [length]. lia.
      + rewrite Elo''. exact Elo. }
  destruct Hmain as (Hg' & Hi' & Hr & Elo).
  repeat split; try assumption.
  - pose proof (rank_extremes _ _ Hg Hi) as (_ & _ & Hb).
    apply (rank_extremes _ _ Hg' Hi'). lia.
  - pose proof (rank_extremes _ _ Hg Hi) as (_ & _ & Hb).
    apply (rank_extremes _ _ Hg' Hi'). lia.
  - intros raw Hraw.
    pose proof (rank_extremes _ _ Hg Hi) as (_ & _ & Hb).
    assert (Htop : exposure_rank (getGain (hw (optimize raws st)))
                     (getIntegrationTime (hw (optimize raws st))) = 8)
      by lia.
    destruct (rank_extremes _ _ Hg' Hi') as (Ht & _).
    destruct (Ht Htop) as [Eg Ei].
    rewrite <- Elo in Hraw.
    destruct (optimizeParams_low raw _ Hg' Hi' Hraw) as (_ & _ & Hstay).
    destruct (Hstay Eg Ei) as [E1 E2].
    rewrite (surjective_pairing (optimizeParams raw (optimize raws st))).
    rewrite E1, E2. reflexivity.
Qed.

Lemma low_counts_drive_optimizeParams_to_the_top_witness :
  let st := optimize [5; 5; 5; 5; 5; 5; 5; 5]
              (Scenario.driver_at VEML7700_GAIN_1_8 VEML7700_IT_25MS) in
  getGain (hw st) = VEML7700_GAIN_2 /\
  getIntegrationTime (hw st) = VEML7700_IT_800MS /\
  forall raw, raw <= 1000 -> optimizeParams raw st = (false, st).
Proof.
  apply (low_counts_drive_optimizeParams_to_the_top [5; 5; 5; 5; 5; 5; 5; 5]
           (Scenario.driver_at VEML7700_GAIN_1_8 VEML7700_IT_25MS)).
  - unfold valid_gain; simpl; tauto.
  - unfold valid_it; simpl; tauto.
  - repeat (apply Forall_cons; [ simpl; lia | ]); apply Forall_nil.
  - simpl; lia.
Defined.

(** X15.  From valid codes and with [low <= high], every call of
    [optimizeParams] with a count above the high threshold moves the
    exposure one rung down until the bottom; after eight of them the
    registers hold gain 1/8x with 25 ms and a further such call returns
    false and changes nothing. *)
Theorem high_counts_drive_optimizeParams_to_the_bottom
    (raws : list Z) (st : Adafruit_VEML7700) :
  valid_gain (getGain (hw st)) -> valid_it (getIntegrationTime (hw st)) ->
  lowThresh st <= hiThresh st ->
  Forall (fun raw => hiThresh st < raw) raws ->
  let st' := optimize raws st in
  valid_gain (getGain (hw st')) /\ valid_it (getIntegrationTime (hw st')) /\
  exposure_rank (getGain (hw st')) (getIntegrationTime (hw st'))
  = Z.max 0 (exposure_rank (getGain (hw st)) (getIntegrationTime (hw st))
             - Z.of_nat (length raws)) /\
  ((8 <= length raws)%nat ->
   getGain (hw st') = VEML7700_GAIN_1_8 /\
   getIntegrationTime (hw st') = VEML7700_IT_25MS /\
   forall raw, hiThresh st < raw -> optimizeParams raw st' = (false, st')).
Proof.
  intros Hg Hi Hband Hall; cbv zeta.
  assert (Hmain :
    valid_gain (getGain (hw (optimize raws st))) /\
    valid_it (getIntegrationTime (hw (optimize raws st))) /\
    exposure_rank (getGain (hw (optimize raws st)))
      (getIntegrationTime (hw (optimize raws st)))
    = Z.max 0 (exposure_rank (getGain (hw st)) (getIntegrationTime (hw st))
               - Z.of_nat (length raws)) /\
    lowThresh (optimize raws st) = lowThresh st /\
    hiThresh (optimize raws st) = hiThresh st).
  { revert st Hg Hi Hband Hall.
    induction raws as [ | raw raws IH ]; intros st Hg Hi Hband Hall.
    - cbn. pose proof (rank_extremes _ _ Hg Hi) as (_ & _ & Hr).
      repeat split; try assumption. lia.
    - inversion Hall as [ | ? ? Hc Hrest ]; subst.
      cbn [optimize].
      destruct (optimizeParams_high_rank raw st Hg Hi Hband Hc)
        as (Hg' & Hi' & Hr' & Elo & Ehi).
      rewrite <- Ehi in Hrest.
      assert (Hband' : lowThresh (snd (optimizeParams raw st))
                       <= hiThresh (snd (optimizeParams raw st)))
        by (rewrite Elo, Ehi; exact Hband).
      destruct (IH _ Hg' Hi' Hband' Hrest)
        as (Hg'' & Hi'' & Hr'' & Elo'' & Ehi'').
      repeat split; try assumption.
      + rewrite Hr'', Hr'. cbn [length]. lia.
      + rewrite Elo''. exact Elo.
      + rewrite Ehi''. exact Ehi. }
  destruct Hmain as (Hg' & Hi' & Hr & Elo & Ehi).
  repeat split; try assumption.
  - pose proof (rank_extremes _ _ Hg Hi) as (_ & _ & Hb).
    apply (rank_extremes _ _ Hg' Hi'). lia.
  - pose proof (rank_extremes _ _ Hg Hi) as (_ & _ & Hb).
    apply (rank_extremes _ _ Hg' Hi'). lia.
  - intros raw Hraw.
    pose proof (rank_extremes _ _ Hg Hi) as (_ & _ & Hb).
    assert (Hbot : exposure_rank (getGain (hw (optimize raws st)))
                     (getIntegrationTime (hw (optimize raws st))) = 0)
      by lia.
    destruct (rank_extremes _ _ Hg' Hi') as (_ & Ht & _).
    destruct (Ht Hbot) as [Eg Ei].
    assert (Hband' : lowThresh (optimize raws st)
                     <= hiThresh (optimize raws st))
      by (rewrite Elo, Ehi; exact Hband).
    assert (Hraw' : raw > hiThresh (optimize raws st))
      by (rewrite Ehi; lia).
    destruct (optimizeParams_high raw _ Hg' Hi' Hband' Hraw')
      as (_ & _ & _ & Hstay).
    destruct (Hstay Eg Ei) as [E1 E2].
    rewrite (surjective_pairing (optimizeParams raw (optimize raws st))).
    rewrite E1, E2. reflexivity.
Qed.

Lemma high_counts_drive_optimizeParams_to_the_bottom_witness :
  let st := optimize
              [40000; 40000; 40000; 40000; 40000; 40000; 40000; 40000]
              (Scenario.driver_at VEML7700_GAIN_2 VEML7700_IT_800MS) in
  getGain (hw st) = VEML7700_GAIN_1_8 /\
  getIntegrationTime (hw st) = VEML7700_IT_25MS /\
  forall raw, 30000 < raw -> optimizeParams raw st = (false, st).
Proof.
  apply (high_counts_drive_optimizeParams_to_the_bottom
           [40000; 40000; 40000; 40000; 40000; 40000; 40000; 40000]
           (Scenario.driver_at VEML7700_GAIN_2 VEML7700_IT_800MS)).
  - unfold valid_gain; simpl; tauto.
  - unfold valid_it; simpl; tauto.
  - simpl; lia.
  - repeat (apply Forall_cons; [ simpl; lia | ]); apply Forall_nil.
  - simpl; lia.
Defined.

End OptimizeRuns.

Section AutoSensorRuns.
Import Device AutoSensor Session.

(** Follow every path of the two loops on the outcome of the tests on the
    readings. *)
Ltac all_paths als_at :=
  unfold luxAutoSensor; simpl;
  repeat match goal with
         | |- context [als_at ?k <=? 100] =>
             destruct (Z.leb_spec (als_at k) 100)
         | |- context [als_at ?k <? 10000] =>
             destruct (Z.ltb_spec (als_at k) 10000)
         end.

(** X16.  Whatever the readings, one call of [luxAutoSensor] spends
    between 190 ms and 1940 ms in [delay]; it spends 1940 ms when the first
    seven readings are all 100 or less. *)
Theorem luxAutoSensor_latency (als_at : nat -> Z) (d : device) (n : nat) :
  exists lux reads it gain d' evs,
    luxAutoSensor (7 + n) als_at d = Some (Returned lux reads it gain d') /\
    bus d' = bus d ++ evs /\
    190 <= waited evs <= 1940 /\
    ((forall k, (k < 7)%nat -> als_at k <= 100) -> waited evs = 1940).
Proof.
  all_paths als_at; do 5 eexists;
    eexists;
    (split; [ reflexivity | ]);
    (split; [ cbn; rewrite <- !app_assoc; reflexivity | ]);
    (split; [ vm_compute; split; discriminate | ]);
    intros Hall;
    pose proof (Hall 0%nat ltac:(lia)); pose proof (Hall 1%nat ltac:(lia));
    pose proof (Hall 2%nat ltac:(lia)); pose proof (Hall 3%nat ltac:(lia));
    pose proof (Hall 4%nat ltac:(lia)); pose proof (Hall 5%nat ltac:(lia));
    pose proof (Hall 6%nat ltac:(lia)); try lia; reflexivity.
Qed.

Lemma luxAutoSensor_latency_witness :
  exists lux reads it gain d' evs,
    luxAutoSensor (7 + 0) (fun _ => 50) power_up
    = Some (Returned lux reads it gain d') /\
    bus d' = bus power_up ++ evs /\ waited evs = 1940.
Proof.
  destruct (luxAutoSensor_latency (fun _ => 50) power_up 0)
    as (lux & reads & it & gain & d' & evs & Hrun & Hbus & _ & Hdark).
  exists lux, reads, it, gain, d', evs.
  split; [ exact Hrun | split; [ exact Hbus | ] ].
  apply Hdark. intros k _. lia.
Defined.

(** X17.  Whatever the readings and whatever the device held before,
    [luxAutoSensor] returns with the sensor enabled and valid gain and
    integration-time codes in the registers; when the first reading is above
    100 the gain is 1/8x and at most three readings are taken. *)
Theorem luxAutoSensor_leaves_sensor_armed
    (als_at : nat -> Z) (d : device) (n : nat) :
  exists lux reads it gain d',
    luxAutoSensor (7 + n) als_at d = Some (Returned lux reads it gain d') /\
    enabled d' = true /\
    valid_gain (getGain d') /\ valid_it (getIntegrationTime d') /\
    (100 < als_at 0%nat -> getGain d' = VEML7700_GAIN_1_8 /\
                           (reads <= 3)%nat).
Proof.
  all_paths als_at; do 5 eexists;
    (split; [ reflexivity | ]);
    (split; [ reflexivity | ]).
  all: (split; [ unfold valid_gain; cbn; tauto | ]).
  all: (split; [ unfold valid_it; cbn; tauto | ]).
  all: intros Hb; try lia.
  all: split; [ reflexivity | lia ].
Qed.

Lemma luxAutoSensor_leaves_sensor_armed_witness :
  exists lux reads it gain d',
    luxAutoSensor (7 + 0) (fun _ => 5000) power_up
    = Some (Returned lux reads it gain d') /\
    enabled d' = true /\ getGain d' = VEML7700_GAIN_1_8 /\ (reads <= 3)%nat.
Proof.
  destruct (luxAutoSensor_leaves_sensor_armed (fun _ => 5000) power_up 0)
    as (lux & reads & it & gain & d' & Hrun & Hen & _ & _ & Hbright).
  exists lux, reads, it, gain, d'.
  split; [ exact Hrun | split; [ exact Hen | ] ].
  apply Hbright. lia.
Defined.

(** X18.  When the first reading is 100 or less, [luxAutoSensor] takes
    between two and seven readings; every reading but the last is 100 or
    less, and the last is above 100 unless seven were taken.  Each of those
    dark readings moves the registers one rung up from gain 1/8x with
    100 ms, the gain first: the integration time stays at 100 ms until the
    gain is 2x. *)
Theorem luxAutoSensor_dark_climbs_gain_first
    (als_at : nat -> Z) (d : device) (n : nat) :
  als_at 0%nat <= 100 ->
  exists lux reads it gain d',
    luxAutoSensor (7 + n) als_at d = Some (Returned lux reads it gain d') /\
    (2 <= reads <= 7)%nat /\
    (forall k, (k < pred reads)%nat -> als_at k <= 100) /\
    (100 < als_at (pred reads) \/ reads = 7%nat) /\
    exposure_rank (getGain d') (getIntegrationTime d')
    = Z.of_nat reads + 1 /\
    (getGain d' <> VEML7700_GAIN_2 ->
     getIntegrationTime d' = VEML7700_IT_100MS).
Proof.
  intros Hdark.
  all_paths als_at; try lia; do 5 eexists;
    (split; [ reflexivity | ]);
    (split; [ lia | ]).
  all: split;
    [ cbn [pred]; intros k Hk;
      assert (Hcase : (k = 0 \/ k = 1 \/ k = 2 \/ k = 3 \/ k = 4 \/ k = 5)%nat)
        by lia;
      destruct Hcase as [E | [E | [E | [E | [E | E]]]]]; subst k;
      first [ assumption | lia ] | ].
  all: split;
    [ cbn [pred]; first [ left; assumption | right; reflexivity ] | ].
  all: split; [ reflexivity | ].
  all: intros Hg; first [ reflexivity | exfalso; apply Hg; reflexivity ].
Qed.

Lemma luxAutoSensor_dark_climbs_gain_first_witness :
  let als_at := fun k : nat => if (k <? 2)%nat then 40 else 900 in
  exists lux reads it gain d',
    luxAutoSensor (7 + 0) als_at power_up
    = Some (Returned lux reads it gain d') /\
    (2 <= reads <= 7)%nat /\
    exposure_rank (getGain d') (getIntegrationTime d')
    = Z.of_nat reads + 1.
Proof.
  intros als_at.
  destruct (luxAutoSensor_dark_climbs_gain_first als_at power_up 0)
    as (lux & reads & it & gain & d' & Hrun & Hreads & _ & _ & Hrank & _).
  - unfold als_at; simpl; lia.
  - exists lux, reads, it, gain, d'. auto.
Defined.

(** X19.  When the first reading is above 100, [luxAutoSensor] measures
    again at gain 1/8x with 50 ms and, if that count is 10000 or more, with
    25 ms, and returns the quartic correction of the raw count of that
    measurement itself; the first reading does not enter the result. *)
Theorem luxAutoSensor_bright_corrects_raw_count
    (als_at : nat -> Z) (d : device) (n : nat) :
  100 < als_at 0%nat ->
  exists lux reads it gain d',
    luxAutoSensor (7 + n) als_at d = Some (Returned lux reads it gain d') /\
    getGain d' = VEML7700_GAIN_1_8 /\
    (als_at 1%nat < 10000 ->
     reads = 2%nat /\ getIntegrationTime d' = VEML7700_IT_50MS /\
     (lux == Calibration.correction (inject_Z (als_at 1%nat)))%Q) /\
    (10000 <= als_at 1%nat ->
     reads = 3%nat /\ getIntegrationTime d' = VEML7700_IT_25MS /\
     (als_at 2%nat < 10000 ->
      (lux == Calibration.correction (inject_Z (als_at 2%nat)))%Q)).
Proof.
  intros Hbright.
  all_paths als_at; try lia; do 5 eexists;
    (split; [ reflexivity | ]);
    (split; [ reflexivity | ]).
  all: split; intros Hc; try lia.
  all: split; [ reflexivity | split; [ reflexivity | ] ].
  all: try (intros Hc'; try lia).
  all: unfold corrected, Calibration.correction; q_consts; ring.
Qed.

Lemma luxAutoSensor_bright_corrects_raw_count_witness :
  exists lux reads it gain d',
    luxAutoSensor (7 + 0) (fun _ => 5000) power_up
    = Some (Returned lux reads it gain d') /\
    reads = 2%nat /\ getIntegrationTime d' = VEML7700_IT_50MS /\
    (lux == Calibration.correction (inject_Z 5000))%Q.
Proof.
  destruct (luxAutoSensor_bright_corrects_raw_count
              (fun _ => 5000) power_up 0)
    as (lux & reads & it & gain & d' & Hrun & _ & Hfirst & _).
  - lia.
  - exists lux, reads, it, gain, d'.
    split; [ exact Hrun | ]. apply Hfirst. lia.
Defined.

End AutoSensorRuns.
